(** * Import script for paired behaviour / photometry recordings

    A shallow embedding of [code/import_script.py]: the file-correspondence
    step ([_get_file_info], [coresponding_files]), the loading loop that
    builds [sessions] and [sync_errors], the [missing_sessions] list and
    the printed summary.

    Python exceptions are values of [exn]; a computation that may raise
    returns a [result].  The collaborators the script imports ([Session],
    [import_ppd], [Rsync_aligner]) are the fields of the class
    [Collaborators]; every call to one of them and every [print] is
    recorded in a [world]. *)

From stdpp Require Import base option list strings gmap pretty.
From Stdlib Require Import Ascii ZArith QArith Lia.


(** ** Exceptions and results *)

Inductive exn : Type :=
  | RsyncError
  | IndexError
  | KeyError (key : string)
  | ZeroDivisionError
  | OtherError (name : string).

Global Instance exn_eq_dec : EqDecision exn.
Proof. solve_decision. Defined.

(** [except RsyncError] catches the exceptions of that class (an exception
    of a subclass is an [RsyncError] here) and no other. *)
Definition is_RsyncError (e : exn) : bool :=
  match e with RsyncError => true | _ => false end.

Inductive result (A : Type) : Type :=
  | Ok (a : A)
  | Raise (e : exn).
Arguments Ok {A} a.
Arguments Raise {A} e.

Global Instance result_ret : MRet result := λ A a, Ok a.
Global Instance result_bind : MBind result := λ A B f r,
  match r with Ok a => f a | Raise e => Raise e end.
Global Instance result_fmap : FMap result := λ A B f r,
  match r with Ok a => Ok (f a) | Raise e => Raise e end.

Definition is_Ok {A} (r : result A) : bool :=
  match r with Ok _ => true | Raise _ => false end.

(** ** Python string and list primitives used by the script *)

Module Py.

(** [s[:n]]: the first [n] characters, all of [s] when it is shorter. *)
Fixpoint slice_to (n : nat) (s : string) : string :=
  match n, s with
  | S n', String c s' => String c (slice_to n' s')
  | _, _ => EmptyString
  end.

(** [s.split(sep, 1)]: the text before the first [sep] and the text after
    it; the one-element list [[s]] when [sep] does not occur. *)
Fixpoint split1 (sep : ascii) (s : string) : list string :=
  match s with
  | EmptyString => [EmptyString]
  | String c s' =>
      if Ascii.eqb c sep then [EmptyString; s']
      else match split1 sep s' with
           | head :: tail => String c head :: tail
           | [] => [String c EmptyString]
           end
  end.

(** [l[i]] for a non-negative index. *)
Definition getitem {A} (l : list A) (i : nat) : result A :=
  match l !! i with
  | Some x => Ok x
  | None => Raise IndexError
  end.

(** [d[k]] on a dict. *)
Definition dict_get {V} (d : gmap string V) (k : string) : result V :=
  match d !! k with
  | Some v => Ok v
  | None => Raise (KeyError k)
  end.

(** Truth value of a name that is a [str] or [None]. *)
Definition truthy (o : option string) : bool :=
  match o with
  | None => false
  | Some EmptyString => false
  | Some (String _ _) => true
  end.

(** [c in s]. *)
Fixpoint contains (c : ascii) (s : string) : bool :=
  match s with
  | EmptyString => false
  | String c' s' => Ascii.eqb c' c || contains c s'
  end.

End Py.

Definition dash : ascii := "-"%char.
Definition has_dash (s : string) : bool := Py.contains dash s.

(** ** Finding corresponding file names (lines 40-52) *)

Definition file_info : Type := string * string.

Definition _get_file_info (filename : string) : result file_info :=
  let subject_ID := Py.slice_to 4 filename in
  tail ← Py.getitem (Py.split1 dash filename) 1;
  let date := Py.slice_to 10 tail in
  Ok (subject_ID, date).

(** [next((f_name for f_name in photometry_filenames
           if b_file_info == _get_file_info(f_name)), None)]:
    the generator is consumed lazily, so the names after the first match
    are never passed to [_get_file_info]. *)
Fixpoint next_match (b_file_info : file_info) (photometry_filenames : list string)
  : result (option string) :=
  match photometry_filenames with
  | [] => Ok None
  | f_name :: rest =>
      info ← _get_file_info f_name;
      if decide (b_file_info = info) then Ok (Some f_name)
      else next_match b_file_info rest
  end.

(** The [for b_file_name in behaviour_filenames] loop, appending to the
    list built so far. *)
Fixpoint coresponding_loop (behaviour_filenames photometry_filenames : list string)
    (acc : list (string * option string)) : result (list (string * option string)) :=
  match behaviour_filenames with
  | [] => Ok acc
  | b_file_name :: rest =>
      b_file_info ← _get_file_info b_file_name;
      p_file_name ← next_match b_file_info photometry_filenames;
      coresponding_loop rest photometry_filenames (acc ++ [(b_file_name, p_file_name)])
  end.

Definition coresponding_files (behaviour_filenames photometry_filenames : list string)
  : result (list (string * option string)) :=
  coresponding_loop behaviour_filenames photometry_filenames [].

(** [missing_sessions] (lines 82-83). *)
Definition missing_sessions (coresponding : list (string * option string)) : list string :=
  omap (λ '(b_file_name, p_file_name),
          match p_file_name with None => Some b_file_name | Some _ => None end)
       coresponding.

(** ** The world of the script

    The script talks to three collaborators and to the terminal.  A [world]
    keeps, in order, the collaborator calls made so far and the strings
    printed so far; it survives an exception. *)

(** A behavioural session object: the [times] dict filled by the loader and
    the [photo_data] attribute the script sets.  [pyobj] stands for the
    Python objects the script only passes around: numbers, arrays and
    aligner objects. *)
Record session_obj (pyobj : Type) : Type := {
  session_times : gmap string pyobj;
  session_photo_data : option (gmap string pyobj)
}.
Arguments session_times {pyobj} _.
Arguments session_photo_data {pyobj} _.

(** What the script imports: the integer literal [1000] and the operator
    [/], [os.path.join], and the three collaborators [Session(file_path)],
    [import_ppd(file_path)] and
    [Rsync_aligner(pulse_times_A, pulse_times_B, units_B)]. *)
Class Collaborators (pyobj : Type) : Type := {
  py_int : Z → pyobj;
  truediv : pyobj → pyobj → result pyobj;
  os_path_join : string → string → string;
  Session : string → result (session_obj pyobj);
  import_ppd : string → result (gmap string pyobj);
  Rsync_aligner : pyobj → pyobj → pyobj → result pyobj
}.

Inductive call (pyobj : Type) : Type :=
  | Call_Session (file_path : string)
  | Call_import_ppd (file_path : string)
  | Call_Rsync_aligner (pulse_times_A pulse_times_B units_B : pyobj).
Arguments Call_Session {pyobj} file_path.
Arguments Call_import_ppd {pyobj} file_path.
Arguments Call_Rsync_aligner {pyobj} pulse_times_A pulse_times_B units_B.

Record world (pyobj : Type) : Type := {
  calls : list (call pyobj);
  stdout : list string
}.
Arguments calls {pyobj} _.
Arguments stdout {pyobj} _.

Section World.

Context {pyobj : Type}.

Definition init_world : world pyobj := {| calls := []; stdout := [] |}.

Definition M (A : Type) : Type := world pyobj → result A * world pyobj.

Global Instance M_ret : MRet M := λ A a w, (Ok a, w).
Global Instance M_bind : MBind M := λ A B f m w,
  match m w with
  | (Ok a, w') => f a w'
  | (Raise e, w') => (Raise e, w')
  end.

Definition lift {A} (r : result A) : M A := λ w, (r, w).

Definition log (c : call pyobj) : M unit := λ w,
  (Ok (), {| calls := calls w ++ [c]; stdout := stdout w |}).

Definition print (s : string) : M unit := λ w,
  (Ok (), {| calls := calls w; stdout := stdout w ++ [s] |}).

(** [try: body except ...: handler]; an exception the handler does not
    take propagates. *)
Definition try_except {A} (body : M A) (handler : exn → option (M A)) : M A := λ w,
  match body w with
  | (Ok a, w') => (Ok a, w')
  | (Raise e, w') =>
      match handler e with
      | Some h => h w'
      | None => (Raise e, w')
      end
  end.

(** [for x in l: body x]. *)
Fixpoint for_each {A} (l : list A) (body : A → M unit) : M unit :=
  match l with
  | [] => mret ()
  | x :: rest => body x;; for_each rest body
  end.

End World.

Arguments M pyobj A : clear implicits.

Section Script.

Context `{Collaborators pyobj}.

Definition call_Session (file_path : string) : M pyobj (session_obj pyobj) :=
  log (Call_Session file_path);; lift (Session file_path).

Definition call_import_ppd (file_path : string) : M pyobj (gmap string pyobj) :=
  log (Call_import_ppd file_path);; lift (import_ppd file_path).

Definition call_Rsync_aligner (pulse_times_A pulse_times_B units_B : pyobj) : M pyobj pyobj :=
  log (Call_Rsync_aligner pulse_times_A pulse_times_B units_B);;
  lift (Rsync_aligner pulse_times_A pulse_times_B units_B).

(** ** Data folders (lines 30-31) *)

Definition photometry_data_folder : string :=
  os_path_join (os_path_join ".." "data") "photometry".
Definition behaviour_data_folder : string :=
  os_path_join (os_path_join ".." "data") "behaviour".

(** ** Loading data and setting up synchronisation (lines 56-78) *)

(** The body of the [try] (lines 70-71): the arguments are evaluated left
    to right, [units_B] last, then the constructor is called. *)
Definition instantiate_aligner (sync_pulse_times sync_pulse_samples : pyobj)
    (photo_data : gmap string pyobj) : M pyobj pyobj :=
  sampling_rate ← lift (Py.dict_get photo_data "sampling_rate");
  units_B ← lift (truediv (py_int 1000) sampling_rate);
  call_Rsync_aligner sync_pulse_times sync_pulse_samples units_B.

(** [session.photo_data = photo_data; session.photo_data['aligner'] = aligner]. *)
Definition attach (session : session_obj pyobj) (photo_data : gmap string pyobj)
    (aligner : pyobj) : session_obj pyobj :=
  {| session_times := session_times session;
     session_photo_data := Some (<["aligner" := aligner]> photo_data) |}.

(** One iteration of the loop over [coresponding_files]; [sessions] and
    [sync_errors] are the two module-level lists. *)
Definition load_pair (sessions : list (session_obj pyobj)) (sync_errors : list (string * string))
    (b_file_name : string) (p_file_name : option string)
  : M pyobj (list (session_obj pyobj) * list (string * string)) :=
  session ← call_Session (os_path_join behaviour_data_folder b_file_name);
  match p_file_name with
  | Some p_name =>
      if Py.truthy p_file_name then
        photo_data ← call_import_ppd (os_path_join photometry_data_folder p_name);
        sync_pulse_samples ← lift (Py.dict_get photo_data "pulse_inds_2");
        sync_pulse_times ← lift (Py.dict_get (session_times session) "rsync");
        attempt ← try_except
          (aligner ← instantiate_aligner sync_pulse_times sync_pulse_samples photo_data;
           mret (Some aligner))
          (λ e, if is_RsyncError e then Some (mret None) else None);
        match attempt with
        | None => mret (sessions, sync_errors ++ [(b_file_name, p_name)])
        | Some aligner =>
            mret (sessions ++ [attach session photo_data aligner], sync_errors)
        end
      else mret (sessions, sync_errors)
  | None => mret (sessions, sync_errors)
  end.

Fixpoint load_loop (coresponding : list (string * option string))
    (sessions : list (session_obj pyobj)) (sync_errors : list (string * string))
  : M pyobj (list (session_obj pyobj) * list (string * string)) :=
  match coresponding with
  | [] => mret (sessions, sync_errors)
  | (b_file_name, p_file_name) :: rest =>
      '(sessions', sync_errors') ← load_pair sessions sync_errors b_file_name p_file_name;
      load_loop rest sessions' sync_errors'
  end.

(** ** The printed summary (lines 80-93) *)

Definition NL : string := String "010"%char EmptyString.

Definition matching_line (n : nat) : string :=
  NL +:+ "Matching behaviour and photometry data found for " +:+ pretty n +:+ " sessions.".

Definition missing_header : string :=
  NL +:+ " No matching photometry data file found for behaviour sessions:".

Definition sync_header : string :=
  NL +:+ "Sync pulses could not be aligned for sessions:".

Definition missing_line (b_file_name : string) : string :=
  "    " +:+ b_file_name.

Definition sync_line (pair : string * string) : string :=
  "    " +:+ pair.1 +:+ " : " +:+ pair.2.

(** The lists the script leaves behind. *)
Record outcome : Type := {
  out_coresponding : list (string * option string);
  out_sessions : list (session_obj pyobj);
  out_sync_errors : list (string * string);
  out_missing : list string
}.

(** The whole script, from the two directory listings. *)
Definition script (photometry_filenames behaviour_filenames : list string) : M pyobj outcome :=
  coresponding ← lift (coresponding_files behaviour_filenames photometry_filenames);
  '(sessions, sync_errors) ← load_loop coresponding [] [];
  print (matching_line (length sessions));;
  let missing := missing_sessions coresponding in
  (match missing with
   | [] => mret ()
   | _ :: _ => print missing_header;; for_each missing (λ b, print (missing_line b))
   end);;
  (match sync_errors with
   | [] => mret ()
   | _ :: _ => print sync_header;; for_each sync_errors (λ pair, print (sync_line pair))
   end);;
  mret {| out_coresponding := coresponding; out_sessions := sessions;
          out_sync_errors := sync_errors; out_missing := missing |}.

End Script.

(** ** The traces of [average_response] (lines 104-113)

    [average_response] collects, for every event of every session, the
    window of the photometry signal around the event, and stacks the
    windows with [np.vstack].  The mean, the time axis and the plot that
    follow (lines 114-121) are floating-point and plotting calls; they are
    not part of this model. *)

Module Np.

(** Where [a[start:stop]] puts an index [i] on a sequence of [len] items:
    a negative index counts from the end, and the result is clipped to
    [0 .. len]. *)
Definition slice_index (len i : Z) : Z :=
  if (i <? 0)%Z then Z.max 0 (i + len) else Z.min i len.

(** [a[start:stop]] on a list or one-dimensional array. *)
Definition slice {A} (a : list A) (start stop : Z) : list A :=
  let len := Z.of_nat (length a) in
  let first := slice_index len start in
  let last := slice_index len stop in
  take (Z.to_nat (last - first)) (drop (Z.to_nat first) a).

(** [x + y] on two [int64] scalars: the sum wraps around. *)
Definition add64 (x y : Z) : Z :=
  ((x + y + 2 ^ 63) mod 2 ^ 64 - 2 ^ 63)%Z.

(** [np.vstack(rows)] on a list of one-dimensional arrays: the rows must
    have one length, and there must be a row. *)
Definition vstack {A} (rows : list (list A)) : result (list (list A)) :=
  match rows with
  | [] => Raise (OtherError "ValueError")
  | row :: rest =>
      if forallb (λ r, (length r =? length row)%nat) rest then Ok rows
      else Raise (OtherError "ValueError")
  end.

End Np.

(** What [average_response] asks of numpy and of the aligner:
    [(np.array(window_ms) * sampling_rate / 1000).astype(int)], an array of
    [int64]; [aligner.A_to_B(event_times).astype(int)], an array of
    [int64]; and the items of a one-dimensional array ([None] for an
    object that is not one).  The first two are floating-point
    computations and stay parameters; [astype(int)] is taken to give
    [int64], as it does where [int] is 64 bits wide, and
    [np.array(window_ms)] is taken not to raise. *)
Class Numpy (pyobj : Type) : Type := {
  window_in_samples : pyobj → pyobj → result (list Z);
  A_to_B_samples : pyobj → pyobj → result (list Z);
  array_items : pyobj → option (list pyobj)
}.

Section AverageResponse.

Context `{Numpy pyobj}.

(** [session.photo_data]: the attribute exists once the import script has
    set it. *)
Definition get_photo_data (session : session_obj pyobj) : result (gmap string pyobj) :=
  match session_photo_data session with
  | Some photo_data => Ok photo_data
  | None => Raise (OtherError "AttributeError")
  end.

(** [session.photo_data['analog_1_filt'][es+window_size[0]:es+window_size[1]]]. *)
Definition trace_around (session : session_obj pyobj) (window_size : list Z) (es : Z)
  : result (list pyobj) :=
  photo_data ← get_photo_data session;
  signal ← Py.dict_get photo_data "analog_1_filt";
  w0 ← Py.getitem window_size 0;
  w1 ← Py.getitem window_size 1;
  match array_items signal with
  | Some items => Ok (Np.slice items (Np.add64 es w0) (Np.add64 es w1))
  | None => Raise (OtherError "TypeError")
  end.

(** [for es in event_samples: traces.append(...)]. *)
Fixpoint events_loop (session : session_obj pyobj) (window_size event_samples : list Z)
    (traces : list (list pyobj)) : result (list (list pyobj)) :=
  match event_samples with
  | [] => Ok traces
  | es :: rest =>
      trace ← trace_around session window_size es;
      events_loop session window_size rest (traces ++ [trace])
  end.

(** [for session in sessions: ...]. *)
Fixpoint sessions_loop (sessions : list (session_obj pyobj)) (event : string)
    (window_ms : pyobj) (traces : list (list pyobj)) : result (list (list pyobj)) :=
  match sessions with
  | [] => Ok traces
  | session :: rest =>
      photo_data ← get_photo_data session;
      sampling_rate ← Py.dict_get photo_data "sampling_rate";
      window_size ← window_in_samples window_ms sampling_rate;
      event_times ← Py.dict_get (session_times session) event;
      aligner ← Py.dict_get photo_data "aligner";
      event_samples ← A_to_B_samples aligner event_times;
      traces' ← events_loop session window_size event_samples traces;
      sessions_loop rest event window_ms traces'
  end.

(** [average_response] up to [traces = np.vstack(traces)]. *)
Definition average_response_traces (sessions : list (session_obj pyobj))
    (event : string) (window_ms : pyobj) : result (list (list pyobj)) :=
  traces ← sessions_loop sessions event window_ms [];
  Np.vstack traces.

End AverageResponse.

(** * Vocabulary of the statements *)

(** [other_key info f]: the name [f] has a key, and it is not [info]. *)
Definition other_key (info : file_info) (f_name : string) : Prop :=
  ∃ info', _get_file_info f_name = Ok info' ∧ info' ≠ info.

(** [paired ps b entry]: [entry] is what the search over [ps] returns for
    the behavioural file name [b]. *)
Definition paired (photometry_filenames : list string) (b_file_name : string)
    (entry : string * option string) : Prop :=
  entry.1 = b_file_name ∧
  ∃ info, _get_file_info b_file_name = Ok info
          ∧ next_match info photometry_filenames = Ok entry.2.

Section WorldVocabulary.

Context {pyobj : Type}.

(** [extend w cs]: the world [w] after the further calls [cs]. *)
Definition extend (w : world pyobj) (cs : list (call pyobj)) : world pyobj :=
  {| calls := calls w ++ cs; stdout := stdout w |}.

(** [printed w ls]: the world [w] after the further lines [ls]. *)
Definition printed (w : world pyobj) (ls : list string) : world pyobj :=
  {| calls := calls w; stdout := stdout w ++ ls |}.


End WorldVocabulary.


(** The lines of the summary, for a number of aligned sessions, the missing
    sessions and the synchronisation errors. *)
Definition summary (n : nat) (missing : list string)
    (sync_errors : list (string * string)) : list string :=
  [matching_line n]
  ++ match missing with
     | [] => []
     | _ :: _ => missing_header :: (missing_line <$> missing)
     end
  ++ match sync_errors with
     | [] => []
     | _ :: _ => sync_header :: (sync_line <$> sync_errors)
     end.

Section ScriptVocabulary.

Context `{Collaborators pyobj}.

(** [frame sessions sync_errors new]: the two lists after the entries
    [new] were appended to them. *)
Definition frame (sessions : list (session_obj pyobj)) (sync_errors : list (string * string))
    (new : list (session_obj pyobj) * list (string * string))
  : list (session_obj pyobj) * list (string * string) :=
  (sessions ++ new.1, sync_errors ++ new.2).

(** What one pair contributes when it is processed on its own: the
    entries it appends (or the exception it raises) and the calls it
    makes. *)
Definition pair_outcome (b_file_name : string) (p_file_name : option string)
  : result (list (session_obj pyobj) * list (string * string)) :=
  (load_pair [] [] b_file_name p_file_name init_world).1.

Definition pair_calls (b_file_name : string) (p_file_name : option string)
  : list (call pyobj) :=
  calls (load_pair [] [] b_file_name p_file_name init_world).2.

(** The same for a list of pairs, and for the body of the [try]. *)
Definition loop_outcome (coresponding : list (string * option string))
  : result (list (session_obj pyobj) * list (string * string)) :=
  (load_loop coresponding [] [] init_world).1.

Definition loop_calls (coresponding : list (string * option string))
  : list (call pyobj) :=
  calls (load_loop coresponding [] [] init_world).2.

Definition aligner_outcome (sync_pulse_times sync_pulse_samples : pyobj)
    (photo_data : gmap string pyobj) : result pyobj :=
  (instantiate_aligner sync_pulse_times sync_pulse_samples photo_data init_world).1.

Definition aligner_calls (sync_pulse_times sync_pulse_samples : pyobj)
    (photo_data : gmap string pyobj) : list (call pyobj) :=
  calls (instantiate_aligner sync_pulse_times sync_pulse_samples photo_data init_world).2.

(** [reaches_alignment b q session photo_data A B]: for the pair [(b, q)]
    both files load and both pulse trains are found. *)
Definition reaches_alignment (b_file_name p_name : string)
    (session : session_obj pyobj) (photo_data : gmap string pyobj)
    (sync_pulse_times sync_pulse_samples : pyobj) : Prop :=
  Session (os_path_join behaviour_data_folder b_file_name) = Ok session
  ∧ Py.truthy (Some p_name) = true
  ∧ import_ppd (os_path_join photometry_data_folder p_name) = Ok photo_data
  ∧ photo_data !! "pulse_inds_2" = Some sync_pulse_samples
  ∧ session_times session !! "rsync" = Some sync_pulse_times.


(** [loaded_from b session]: [session] is the object loaded from the
    behavioural file [b], with photometry data and an aligner attached. *)
Definition loaded_from (b_file_name : string) (session : session_obj pyobj) : Prop :=
  ∃ loaded photo_data aligner,
    Session (os_path_join behaviour_data_folder b_file_name) = Ok loaded
    ∧ session = attach loaded photo_data aligner.

End ScriptVocabulary.

(** ** The clock model of the aligner

    The class [Rsync_aligner] is imported from a module that is not part of
    the source.  The specification (section 4.4) fits
    [time_B = a * time_A + b] and stores [(a, b)] with the inverse
    [(1/a, -b/a)].  Times are exact rationals here, not floating-point
    numbers. *)

Module ClockModel.

(** Modelled from the spec: the parameters of the fitted clock model and of
    its inverse. *)
Record model : Type := {
  slope : Q;
  intercept : Q;
  inv_slope : Q;
  inv_intercept : Q
}.

(** Modelled from the spec: the model stored for a fit [(a, b)]. *)
Definition fit (a b : Q) : model :=
  {| slope := a; intercept := b;
     inv_slope := (1 / a)%Q; inv_intercept := (- b / a)%Q |}.

(** Modelled from the spec: forward conversion, any time accepted. *)
Definition A_to_B (m : model) (x : Q) : Q := (slope m * x + intercept m)%Q.

(** Modelled from the spec: inverse conversion, any time accepted. *)
Definition B_to_A (m : model) (y : Q) : Q := (inv_slope m * y + inv_intercept m)%Q.

End ClockModel.

(** ** A small concrete world

    Four recordings on disk, used to run the script: [m001] aligns, [m002]
    has no photometry file, the pulse trains of [m003] do not correspond,
    and the photometry file of [m004] declares a sampling rate of zero. *)

Module Demo.

Inductive obj : Type :=
  | Int (z : Z)
  | Ratio (num den : Z)
  | Arr (xs : list Z)
  | Aligner (pulse_times_A pulse_times_B : list Z) (units_B : obj).

Definition div (x y : obj) : result obj :=
  match x, y with
  | Int a, Int b => if (b =? 0)%Z then Raise ZeroDivisionError else Ok (Ratio a b)
  | _, _ => Raise (OtherError "TypeError")
  end.

Definition join (folder name : string) : string := folder +:+ "/" +:+ name.

Definition behaviour_dir : string := "../data/behaviour/".
Definition photometry_dir : string := "../data/photometry/".

Definition load_session (file_path : string) : result (session_obj obj) :=
  if decide (file_path = behaviour_dir +:+ "m001-2019-01-01.txt") then
    Ok {| session_times := {[ "rsync" := Arr [0; 1000; 2000]%Z ]};
          session_photo_data := None |}
  else if decide (file_path = behaviour_dir +:+ "m002-2019-01-01.txt") then
    Ok {| session_times := {[ "rsync" := Arr [0; 1000]%Z ]};
          session_photo_data := None |}
  else if decide (file_path = behaviour_dir +:+ "m003-2019-01-01.txt") then
    Ok {| session_times := {[ "rsync" := Arr [0; 1000; 2000]%Z ]};
          session_photo_data := None |}
  else if decide (file_path = behaviour_dir +:+ "m004-2019-01-01.txt") then
    Ok {| session_times := {[ "rsync" := Arr [0; 1000]%Z ]};
          session_photo_data := None |}
  else Raise (OtherError "FileNotFoundError").

Definition load_ppd (file_path : string) : result (gmap string obj) :=
  if decide (file_path = photometry_dir +:+ "m001-2019-01-01.ppd") then
    Ok {[ "sampling_rate" := Int 130; "pulse_inds_2" := Arr [0; 130; 260]%Z ]}
  else if decide (file_path = photometry_dir +:+ "m003-2019-01-01.ppd") then
    Ok {[ "sampling_rate" := Int 130; "pulse_inds_2" := Arr [7]%Z ]}
  else if decide (file_path = photometry_dir +:+ "m004-2019-01-01.ppd") then
    Ok {[ "sampling_rate" := Int 0; "pulse_inds_2" := Arr [0; 130]%Z ]}
  else Raise (OtherError "FileNotFoundError").

(** A stand-in aligner: the pulse trains correspond when they have the
    same number of pulses. *)
Definition aligner (pulse_times_A pulse_times_B units_B : obj) : result obj :=
  match pulse_times_A, pulse_times_B with
  | Arr a, Arr b =>
      if (length a =? length b)%nat then Ok (Aligner a b units_B) else Raise RsyncError
  | _, _ => Raise (OtherError "TypeError")
  end.

Global Instance collaborators : Collaborators obj := {|
  py_int := Int;
  truediv := div;
  os_path_join := join;
  Session := load_session;
  import_ppd := load_ppd;
  Rsync_aligner := aligner
|}.

Definition behaviour_filenames : list string :=
  ["m001-2019-01-01.txt"; "m002-2019-01-01.txt"; "m003-2019-01-01.txt"].
Definition photometry_filenames : list string :=
  ["m001-2019-01-01.ppd"; "m003-2019-01-01.ppd"].

End Demo.

(** ** The input check of the aligner's constructor

    The constructor [Rsync_aligner] lives in the module [rsync], which is
    not part of the script; what it does with malformed input is taken from
    the specification.  Numbers are exact rationals here. *)

Module SpecAligner.

(** Objects of this world: numbers, numeric sequences and aligners. *)
Inductive obj : Type :=
  | Number (q : Q)
  | Sequence (xs : list Q)
  | Aligner (m : ClockModel.model).

(** Modelled from the spec: the check of [Rsync_aligner] that a pulse
    sequence is strictly increasing, each pulse later than the one before. *)
Fixpoint strictly_increasing (xs : list Q) : bool :=
  match xs with
  | x :: (y :: _) as rest => negb (Qle_bool y x) && strictly_increasing rest
  | _ => true
  end.

(** Modelled from the spec: the input of [Rsync_aligner] is malformed when
    the unit scale is not positive, or a pulse sequence is empty, or a pulse
    sequence is not increasing. *)
Definition malformed (pulse_times_A pulse_times_B : list Q) (unit_scale_B : Q) : bool :=
  Qle_bool unit_scale_B 0
  || bool_decide (pulse_times_A = [])
  || bool_decide (pulse_times_B = [])
  || negb (strictly_increasing pulse_times_A)
  || negb (strictly_increasing pulse_times_B).

(** [x / y] on numbers. *)
Definition divide (x y : obj) : result obj :=
  match x, y with
  | Number a, Number b =>
      if Qeq_bool b 0 then Raise ZeroDivisionError else Ok (Number (a / b))
  | _, _ => Raise (OtherError "TypeError")
  end.

Section Construction.

(** The matching of the two pulse trains and the fit of the clock model,
    which give a model or fail. *)
Variable match_and_fit : list Q → list Q → Q → option ClockModel.model.

(** Modelled from the spec: the constructor of [Rsync_aligner].  Malformed
    input is signalled as [MalformedInput], an error of its own kind;
    otherwise the pulse trains are matched and fitted, and a failure to
    align them is the alignment failure, [RsyncError]. *)
Definition construct (pulse_times_A pulse_times_B units_B : obj) : result obj :=
  match pulse_times_A, pulse_times_B, units_B with
  | Sequence a, Sequence b, Number unit_scale_B =>
      if malformed a b unit_scale_B then Raise (OtherError "MalformedInput")
      else match match_and_fit a b unit_scale_B with
           | Some m => Ok (Aligner m)
           | None => Raise RsyncError
           end
  | _, _, _ => Raise (OtherError "TypeError")
  end.

Variable join : string → string → string.
Variable load_session : string → result (session_obj obj).
Variable load_ppd : string → result (gmap string obj).

(** The script's collaborators, with this constructor. *)
Definition collaborators : Collaborators obj :=
  {| py_int := λ z, Number (inject_Z z);
     truediv := divide;
     os_path_join := join;
     Session := load_session;
     import_ppd := load_ppd;
     Rsync_aligner := construct |}.

End Construction.

(** Recordings for this constructor: the pulse trains of [m001] are well
    formed but are not reconciled, every other photometry file holds no
    pulse at all. *)
Definition demo_fit (a b : list Q) (unit_scale_B : Q) : option ClockModel.model := None.

Definition demo_session (file_path : string) : result (session_obj obj) :=
  Ok {| session_times := {[ "rsync" := Sequence [0; 1000; 2000]%Q ]};
        session_photo_data := None |}.

Definition demo_ppd (file_path : string) : result (gmap string obj) :=
  if decide (file_path = Demo.photometry_dir +:+ "m001-2019-01-01.ppd") then
    Ok {[ "sampling_rate" := Number 130; "pulse_inds_2" := Sequence [0; 130; 300]%Q ]}
  else
    Ok {[ "sampling_rate" := Number 130; "pulse_inds_2" := Sequence [] ]}.

End SpecAligner.

(** ** Vocabulary of the further properties *)

Section CallVocabulary.

Context {pyobj : Type}.

(** The path of a call to [Session], and of a call to [import_ppd]. *)
Definition session_path (c : call pyobj) : option string :=
  match c with Call_Session file_path => Some file_path | _ => None end.

Definition ppd_path (c : call pyobj) : option string :=
  match c with Call_import_ppd file_path => Some file_path | _ => None end.

End CallVocabulary.

Section LoaderVocabulary.

Context `{Collaborators pyobj}.

(** [fails_outside_try b p x]: processing the pair [(b, p)] raises [x]
    before the [try] is entered: in [Session], in [import_ppd], or in one
    of the two look-ups of the pulse trains. *)
Definition fails_outside_try (b_file_name : string) (p_file_name : option string)
    (x : exn) : Prop :=
  Session (os_path_join behaviour_data_folder b_file_name) = Raise x
  ∨ ∃ session p_name,
      Session (os_path_join behaviour_data_folder b_file_name) = Ok session
      ∧ p_file_name = Some p_name
      ∧ Py.truthy p_file_name = true
      ∧ (import_ppd (os_path_join photometry_data_folder p_name) = Raise x
         ∨ ∃ photo_data,
             import_ppd (os_path_join photometry_data_folder p_name) = Ok photo_data
             ∧ ((photo_data !! "pulse_inds_2" = None ∧ x = KeyError "pulse_inds_2")
                ∨ (is_Some (photo_data !! "pulse_inds_2")
                   ∧ session_times session !! "rsync" = None
                   ∧ x = KeyError "rsync"))).

End LoaderVocabulary.

Section ResponseVocabulary.

Context `{Numpy pyobj}.

(** What [average_response] computes for a session before it visits the
    events: [window_size] and [event_samples]. *)
Definition session_events (session : session_obj pyobj) (event : string)
    (window_ms : pyobj) : result (list Z * list Z) :=
  photo_data ← get_photo_data session;
  sampling_rate ← Py.dict_get photo_data "sampling_rate";
  window_size ← window_in_samples window_ms sampling_rate;
  event_times ← Py.dict_get (session_times session) event;
  aligner ← Py.dict_get photo_data "aligner";
  event_samples ← A_to_B_samples aligner event_times;
  Ok (window_size, event_samples).

(** [signal_of session items]: the session's photometry data hold, under
    'analog_1_filt', the one-dimensional array of the items [items]. *)
Definition signal_of (session : session_obj pyobj) (items : list pyobj) : Prop :=
  ∃ photo_data signal,
    session_photo_data session = Some photo_data
    ∧ photo_data !! "analog_1_filt" = Some signal
    ∧ array_items signal = Some items.

(** [fits len first last]: the window [first .. last) lies inside a
    recording of [len] samples. *)
Definition fits (len : nat) (first last : Z) : Prop :=
  (0 ≤ first ∧ last ≤ Z.of_nat len)%Z.


End ResponseVocabulary.

(** The values of an [int64]. *)
Definition int64 (z : Z) : Prop := (- 2 ^ 63 ≤ z < 2 ^ 63)%Z.

(** ** A small recording for [average_response]

    A signal of 50 samples at 10 Hz and an aligner that maps a time in
    milliseconds to the sample [time * 10 / 1000]. *)

Module DemoResponse.

Definition window (window_ms sampling_rate : Demo.obj) : result (list Z) :=
  match window_ms, sampling_rate with
  | Demo.Arr ms, Demo.Int rate => Ok ((λ t, Z.quot (t * rate) 1000) <$> ms)
  | _, _ => Raise (OtherError "TypeError")
  end.

Definition to_samples (aligner event_times : Demo.obj) : result (list Z) :=
  match aligner, event_times with
  | Demo.Aligner _ _ (Demo.Ratio num den), Demo.Arr times =>
      Ok ((λ t, Z.quot (t * den) num) <$> times)
  | _, _ => Raise (OtherError "TypeError")
  end.

Definition items (a : Demo.obj) : option (list Demo.obj) :=
  match a with
  | Demo.Arr xs => Some (Demo.Int <$> xs)
  | _ => None
  end.

Global Instance numpy : Numpy Demo.obj := {|
  window_in_samples := window;
  A_to_B_samples := to_samples;
  array_items := items
|}.

Definition signal : list Z := Z.of_nat <$> seq 100 50.

Definition photo_data : gmap string Demo.obj :=
  {[ "sampling_rate" := Demo.Int 10;
     "analog_1_filt" := Demo.Arr signal;
     "aligner" := Demo.Aligner [0; 1000]%Z [0; 10]%Z (Demo.Ratio 1000 10) ]}.

(** A session with rewards at 1 s and 2 s, one with a further reward at
    4 s, and one without reward. *)
Definition session (reward_times : list Z) : session_obj Demo.obj :=
  {| session_times := {[ "rsync" := Demo.Arr [0; 1000]%Z;
                         "reward" := Demo.Arr reward_times ]};
     session_photo_data := Some photo_data |}.

Definition window_ms : Demo.obj := Demo.Arr [-1000; 2000]%Z.

End DemoResponse.

(** ** Proof automation for the world monad *)

Ltac run_monad :=
  cbv [mbind M_bind mret M_ret lift log call_Session call_import_ppd
       call_Rsync_aligner instantiate_aligner try_except Py.dict_get
       fmap result_fmap frame extend init_world].

Ltac step_monad :=
  cbv [mbind M_bind mret M_ret lift log call_Session call_import_ppd
       try_except Py.dict_get].

Ltac crush_cases :=
  repeat (case_match; simpl in *; simplify_eq);
  rewrite ?app_nil_r, <- ?app_assoc; try done; try congruence.

(** * Properties *)

(** ** Python primitives *)

Lemma append_String c s1 s2 : String c s1 +:+ s2 = String c (s1 +:+ s2).
Proof. reflexivity. Qed.

Lemma append_Empty s : EmptyString +:+ s = s.
Proof. reflexivity. Qed.

Lemma slice_to_length n s :
  String.length (Py.slice_to n s) = n `min` String.length s.
Proof.
  revert s. induction n as [|n IH]; intros [|c s]; simpl; try reflexivity.
  by rewrite IH.
Qed.

Lemma slice_to_prefix n s : ∃ rest, s = Py.slice_to n s +:+ rest.
Proof.
  revert s. induction n as [|n IH]; intros s.
  - exists s. by destruct s.
  - destruct s as [|c s]; [by exists EmptyString|].
    destruct (IH s) as [rest Hrest]. exists rest. simpl.
    by rewrite append_String, <- Hrest.
Qed.

Lemma split1_absent sep s :
  Py.contains sep s = false → Py.split1 sep s = [s].
Proof.
  induction s as [|c s IH]; simpl; [done|].
  destruct (Ascii.eqb c sep); simpl; [done|].
  intros Hs. by rewrite IH.
Qed.

Lemma split1_first sep before after :
  Py.contains sep before = false →
  Py.split1 sep (before +:+ String sep after) = [before; after].
Proof.
  induction before as [|c before IH].
  - intros _. rewrite append_Empty. simpl. by rewrite Ascii.eqb_refl.
  - rewrite append_String. simpl.
    destruct (Ascii.eqb c sep); simpl; [done|].
    intros Hs. by rewrite IH.
Qed.

Lemma contains_first sep s :
  Py.contains sep s = true →
  ∃ before after, s = before +:+ String sep after ∧ Py.contains sep before = false.
Proof.
  induction s as [|c s IH]; simpl; [done|].
  destruct (Ascii.eqb c sep) eqn:Hc; simpl.
  - intros _. apply Ascii.eqb_eq in Hc as ->. by exists EmptyString, s.
  - intros Hs. destruct (IH Hs) as (before & after & -> & Hbefore).
    exists (String c before), after. simpl. by rewrite Hc.
Qed.

Lemma contains_at sep before after :
  Py.contains sep (before +:+ String sep after) = true.
Proof.
  induction before as [|c before IH].
  - rewrite append_Empty. simpl. by rewrite Ascii.eqb_refl.
  - rewrite append_String. simpl. rewrite IH. by destruct (Ascii.eqb c sep).
Qed.

Lemma contains_false_iff sep s :
  Py.contains sep s = false ↔ ∀ before after, s ≠ before +:+ String sep after.
Proof.
  split.
  - intros Hs before after ->. by rewrite contains_at in Hs.
  - intros Hs. destruct (Py.contains sep s) eqn:Hc; [|done].
    destruct (contains_first _ _ Hc) as (before & after & -> & _).
    by destruct (Hs before after).
Qed.

(** ** Key extraction *)

Lemma get_file_info_no_dash filename :
  has_dash filename = false → _get_file_info filename = Raise IndexError.
Proof.
  intros Hd. unfold _get_file_info. by rewrite (split1_absent _ _ Hd).
Qed.

Lemma get_file_info_at_dash before after :
  has_dash before = false →
  _get_file_info (before +:+ String dash after)
  = Ok (Py.slice_to 4 (before +:+ String dash after), Py.slice_to 10 after).
Proof.
  intros Hd. unfold _get_file_info. by rewrite (split1_first _ _ _ Hd).
Qed.

Lemma get_file_info_is_Ok filename :
  is_Ok (_get_file_info filename) = has_dash filename.
Proof.
  destruct (has_dash filename) eqn:Hd.
  - destruct (contains_first _ _ Hd) as (before & after & -> & Hb).
    by rewrite get_file_info_at_dash.
  - by rewrite get_file_info_no_dash.
Qed.

Lemma get_file_info_Ok_dash filename info :
  _get_file_info filename = Ok info → has_dash filename = true.
Proof. intros Hk. by rewrite <- get_file_info_is_Ok, Hk. Qed.

Lemma get_file_info_dash_Ok filename :
  has_dash filename = true → ∃ info, _get_file_info filename = Ok info.
Proof.
  rewrite <- get_file_info_is_Ok. destruct (_get_file_info filename); [eauto|done].
Qed.

(** ** The search for the first match *)


Lemma next_match_first info before p after :
  Forall (other_key info) before →
  _get_file_info p = Ok info →
  next_match info (before ++ p :: after) = Ok (Some p).
Proof.
  intros Hbefore Hp. induction Hbefore as [|q before (info' & Hq & Hne) _ IH]; simpl.
  - rewrite Hp. simpl. by rewrite decide_True.
  - rewrite Hq. simpl. by rewrite decide_False.
Qed.

Lemma next_match_none info photometry_filenames :
  Forall (other_key info) photometry_filenames →
  next_match info photometry_filenames = Ok None.
Proof.
  induction 1 as [|q rest (info' & Hq & Hne) _ IH]; simpl; [done|].
  rewrite Hq. simpl. by rewrite decide_False.
Qed.

Lemma next_match_Some_inv info photometry_filenames p :
  next_match info photometry_filenames = Ok (Some p) →
  ∃ before after, photometry_filenames = before ++ p :: after
    ∧ Forall (other_key info) before ∧ _get_file_info p = Ok info.
Proof.
  induction photometry_filenames as [|q rest IH]; simpl; [done|].
  destruct (_get_file_info q) as [info'|] eqn:Hq; simpl; [|done].
  destruct (decide (info = info')) as [<-|Hne].
  - intros [= <-]. by exists [], rest.
  - intros Hrest. destruct (IH Hrest) as (before & after & -> & Hb & Hp).
    exists (q :: before), after. split_and!; [done| |done].
    constructor; [|done]. exists info'. eauto.
Qed.

Lemma next_match_None_inv info photometry_filenames :
  next_match info photometry_filenames = Ok None →
  Forall (other_key info) photometry_filenames.
Proof.
  induction photometry_filenames as [|q rest IH]; simpl; [constructor|].
  destruct (_get_file_info q) as [info'|] eqn:Hq; simpl; [|done].
  destruct (decide (info = info')) as [<-|Hne]; [done|].
  intros Hrest. constructor; [|by apply IH]. exists info'. eauto.
Qed.

Lemma next_match_total info photometry_filenames :
  Forall (λ f, has_dash f = true) photometry_filenames →
  ∃ p_file_name, next_match info photometry_filenames = Ok p_file_name.
Proof.
  induction 1 as [|q rest Hq _ [p IH]]; simpl; [eauto|].
  destruct (get_file_info_dash_Ok _ Hq) as [info' ->]. simpl.
  destruct (decide (info = info')); eauto.
Qed.

(** A matched name is never the empty string, so [if p_file_name:] and
    [if p_file_name is None] agree on what the search returns. *)
Lemma next_match_truthy info photometry_filenames p :
  next_match info photometry_filenames = Ok (Some p) →
  Py.truthy (Some p) = true.
Proof.
  intros Hm. destruct (next_match_Some_inv _ _ _ Hm) as (_ & _ & _ & _ & Hp).
  apply get_file_info_Ok_dash in Hp. by destruct p.
Qed.

(** ** The correspondence loop *)

Lemma coresponding_loop_acc behaviour_filenames photometry_filenames acc :
  coresponding_loop behaviour_filenames photometry_filenames acc
  = (λ out, acc ++ out) <$> coresponding_loop behaviour_filenames photometry_filenames [].
Proof.
  revert acc. induction behaviour_filenames as [|b rest IH]; intros acc; simpl.
  - by rewrite app_nil_r.
  - destruct (_get_file_info b) as [info|]; simpl; [|done].
    destruct (next_match info photometry_filenames) as [p|]; simpl; [|done].
    rewrite IH, (IH [_]).
    destruct (coresponding_loop rest photometry_filenames []); simpl; [|done].
    by rewrite <- app_assoc.
Qed.

Lemma coresponding_files_cons b rest photometry_filenames :
  coresponding_files (b :: rest) photometry_filenames
  = (b_file_info ← _get_file_info b;
     p_file_name ← next_match b_file_info photometry_filenames;
     out ← coresponding_files rest photometry_filenames;
     Ok ((b, p_file_name) :: out)).
Proof.
  unfold coresponding_files. simpl.
  destruct (_get_file_info b) as [info|]; simpl; [|done].
  destruct (next_match info photometry_filenames) as [p|]; simpl; [|done].
  rewrite coresponding_loop_acc.
  by destruct (coresponding_loop rest photometry_filenames []).
Qed.


Lemma coresponding_files_paired behaviour_filenames photometry_filenames out :
  coresponding_files behaviour_filenames photometry_filenames = Ok out →
  Forall2 (paired photometry_filenames) behaviour_filenames out.
Proof.
  revert out. induction behaviour_filenames as [|b rest IH]; intros out.
  - intros [= <-]. constructor.
  - rewrite coresponding_files_cons.
    destruct (_get_file_info b) as [info|] eqn:Hb; simpl; [|done].
    destruct (next_match info photometry_filenames) as [p|] eqn:Hp; simpl; [|done].
    destruct (coresponding_files rest photometry_filenames) as [out'|]; simpl; [|done].
    intros [= <-]. constructor; [|by apply IH].
    split; [done|]. exists info. eauto.
Qed.

Lemma coresponding_files_total behaviour_filenames photometry_filenames :
  Forall (λ f, has_dash f = true) behaviour_filenames →
  Forall (λ f, has_dash f = true) photometry_filenames →
  ∃ out, coresponding_files behaviour_filenames photometry_filenames = Ok out.
Proof.
  intros Hbs Hps. induction Hbs as [|b rest Hb _ [out IH]]; [by exists []|].
  rewrite coresponding_files_cons.
  destruct (get_file_info_dash_Ok _ Hb) as [info ->]. simpl.
  destruct (next_match_total info _ Hps) as [p ->]. simpl.
  rewrite IH. simpl. eauto.
Qed.

Lemma coresponding_files_fst behaviour_filenames photometry_filenames out :
  coresponding_files behaviour_filenames photometry_filenames = Ok out →
  out.*1 = behaviour_filenames.
Proof.
  intros Hout. apply coresponding_files_paired in Hout.
  induction Hout as [|b e bs out [Hb _] _ IH]; [done|].
  rewrite fmap_cons. by f_equal.
Qed.

Lemma coresponding_files_truthy behaviour_filenames photometry_filenames out :
  coresponding_files behaviour_filenames photometry_filenames = Ok out →
  Forall (λ entry, entry.2 = None ∨ Py.truthy entry.2 = true) out.
Proof.
  intros Hout. apply coresponding_files_paired in Hout.
  induction Hout as [|b [b' [p|]] bs out (_ & info & _ & Hm) _ IH];
    constructor; simpl in *; eauto using next_match_truthy.
Qed.

(** ** The world monad *)

Section WorldFacts.

Context {pyobj : Type}.

Lemma extend_nil (w : world pyobj) : extend w [] = w.
Proof. destruct w. unfold extend. simpl. by rewrite app_nil_r. Qed.

Lemma extend_extend (w : world pyobj) cs1 cs2 :
  extend (extend w cs1) cs2 = extend w (cs1 ++ cs2).
Proof. unfold extend. simpl. by rewrite app_assoc. Qed.

Lemma printed_nil (w : world pyobj) : printed w [] = w.
Proof. destruct w. unfold printed. simpl. by rewrite app_nil_r. Qed.

Lemma printed_printed (w : world pyobj) ls1 ls2 :
  printed (printed w ls1) ls2 = printed w (ls1 ++ ls2).
Proof. unfold printed. simpl. by rewrite app_assoc. Qed.

Lemma bind_run {A B} (m : M pyobj A) (f : A → M pyobj B) w :
  (m ≫= f) w
  = match m w with
    | (Ok a, w') => f a w'
    | (Raise e, w') => (Raise e, w')
    end.
Proof. reflexivity. Qed.

Lemma ret_run {A} (a : A) (w : world pyobj) : (mret a : M pyobj A) w = (Ok a, w).
Proof. reflexivity. Qed.

Lemma lift_run {A} (r : result A) (w : world pyobj) : lift r w = (r, w).
Proof. reflexivity. Qed.

Lemma log_run (c : call pyobj) w : log c w = (Ok (), extend w [c]).
Proof. reflexivity. Qed.

Lemma print_run (s : string) (w : world pyobj) : print s w = (Ok (), printed w [s]).
Proof. reflexivity. Qed.

Lemma for_each_print {A} (l : list A) (line : A → string) (w : world pyobj) :
  for_each l (λ x, print (line x)) w = (Ok (), printed w (line <$> l)).
Proof.
  revert w. induction l as [|x l IH]; intros w; simpl.
  - by rewrite ret_run, printed_nil.
  - rewrite bind_run, print_run, IH, printed_printed. done.
Qed.

End WorldFacts.

(** ** The loading loop *)

Section ScriptFacts.

Context `{Collaborators pyobj}.

Lemma instantiate_aligner_run sync_pulse_times sync_pulse_samples photo_data w :
  instantiate_aligner sync_pulse_times sync_pulse_samples photo_data w
  = (aligner_outcome sync_pulse_times sync_pulse_samples photo_data,
     extend w (aligner_calls sync_pulse_times sync_pulse_samples photo_data)).
Proof.
  unfold aligner_outcome, aligner_calls. run_monad. simpl.
  destruct w as [cs out]. crush_cases.
Qed.

Lemma load_pair_run sessions sync_errors b_file_name p_file_name w :
  load_pair sessions sync_errors b_file_name p_file_name w
  = (frame sessions sync_errors <$> pair_outcome b_file_name p_file_name,
     extend w (pair_calls b_file_name p_file_name)).
Proof.
  unfold pair_outcome, pair_calls, load_pair. run_monad. simpl. crush_cases.
Qed.

Lemma load_loop_cons b_file_name p_file_name rest sessions sync_errors w :
  load_loop ((b_file_name, p_file_name) :: rest) sessions sync_errors w
  = match load_pair sessions sync_errors b_file_name p_file_name w with
    | (Ok new, w') => load_loop rest new.1 new.2 w'
    | (Raise x, w') => (Raise x, w')
    end.
Proof. simpl. rewrite bind_run. by repeat case_match. Qed.

Lemma load_loop_run coresponding sessions sync_errors w :
  load_loop coresponding sessions sync_errors w
  = (frame sessions sync_errors <$> loop_outcome coresponding,
     extend w (loop_calls coresponding)).
Proof.
  revert sessions sync_errors w.
  induction coresponding as [|[b p] rest IH]; intros s e w.
  - unfold loop_outcome, loop_calls. simpl. rewrite !ret_run. simpl.
    unfold frame. simpl. by rewrite !app_nil_r, extend_nil.
  - unfold loop_outcome, loop_calls. rewrite !load_loop_cons, !load_pair_run.
    destruct (pair_outcome b p) as [[s0 e0]|x]; simpl.
    + rewrite !IH. simpl. rewrite !extend_extend. f_equal.
      destruct (loop_outcome rest) as [new|]; simpl; [|done].
      unfold frame. simpl. by rewrite !app_assoc.
    + done.
Qed.

Lemma load_loop_app l1 l2 sessions sync_errors w :
  load_loop (l1 ++ l2) sessions sync_errors w
  = match load_loop l1 sessions sync_errors w with
    | (Ok new, w') => load_loop l2 new.1 new.2 w'
    | (Raise x, w') => (Raise x, w')
    end.
Proof.
  revert sessions sync_errors w.
  induction l1 as [|[b p] l1 IH]; intros s e w; [done|].
  rewrite <- app_comm_cons, !load_loop_cons.
  destruct (load_pair s e b p w) as [[new|x] w']; [apply IH|done].
Qed.

Lemma loop_outcome_cons b p rest :
  loop_outcome ((b, p) :: rest)
  = match pair_outcome b p with
    | Ok new => frame new.1 new.2 <$> loop_outcome rest
    | Raise x => Raise x
    end.
Proof.
  unfold loop_outcome at 1. rewrite load_loop_cons, load_pair_run.
  destruct (pair_outcome b p) as [new|x]; simpl; [|done].
  rewrite load_loop_run. simpl. by destruct new.
Qed.

Lemma loop_calls_cons b p rest :
  loop_calls ((b, p) :: rest)
  = pair_calls b p ++ (if is_Ok (pair_outcome b p) then loop_calls rest else []).
Proof.
  unfold loop_calls at 1. rewrite load_loop_cons, load_pair_run.
  destruct (pair_outcome b p) as [new|x]; simpl; [|by rewrite app_nil_r].
  rewrite load_loop_run. done.
Qed.


Lemma pair_reached b q session photo_data A B :
  reaches_alignment b q session photo_data A B →
  pair_outcome b (Some q)
  = match aligner_outcome A B photo_data with
    | Ok aligner => Ok ([attach session photo_data aligner], [])
    | Raise x => if is_RsyncError x then Ok ([], [(b, q)]) else Raise x
    end
  ∧ pair_calls b (Some q)
    = [Call_Session (os_path_join behaviour_data_folder b);
       Call_import_ppd (os_path_join photometry_data_folder q)]
      ++ aligner_calls A B photo_data.
Proof.
  intros (Hs & Ht & Hp & HB & HA).
  unfold pair_outcome, pair_calls, load_pair. step_monad.
  rewrite Hs, Ht, Hp, HB, HA, instantiate_aligner_run.
  destruct (aligner_outcome A B photo_data) as [al|x]; simpl; [done|].
  by destruct (is_RsyncError x).
Qed.

Lemma pair_outcome_Ok_inv b p new :
  pair_outcome b p = Ok new →
  (Py.truthy p = false ∧ new = ([], []))
  ∨ ∃ q session photo_data A B, p = Some q
      ∧ reaches_alignment b q session photo_data A B
      ∧ ((∃ aligner, aligner_outcome A B photo_data = Ok aligner
                     ∧ new = ([attach session photo_data aligner], []))
         ∨ (aligner_outcome A B photo_data = Raise RsyncError
            ∧ new = ([], [(b, q)]))).
Proof.
  unfold pair_outcome, load_pair. step_monad.
  destruct (Session _) as [session|] eqn:Hs; [|done].
  destruct p as [q|]; [|intros [= <-]; by left].
  destruct (Py.truthy (Some q)) eqn:Ht; [|intros [= <-]; by left].
  destruct (import_ppd _) as [photo_data|] eqn:Hp; [|done].
  destruct (photo_data !! "pulse_inds_2") as [B|] eqn:HB; [|done].
  destruct (session_times session !! "rsync") as [A|] eqn:HA; [|done].
  rewrite instantiate_aligner_run.
  intros Hnew. right. exists q, session, photo_data, A, B.
  split; [done|]. split; [done|].
  destruct (aligner_outcome A B photo_data) as [al|x]; simpl in Hnew.
  - left. exists al. split; [done|]. by injection Hnew as <-.
  - right. destruct x; simpl in Hnew; try done. split; [done|].
    by injection Hnew as <-.
Qed.

Lemma aligner_units A B photo_data sampling_rate units :
  photo_data !! "sampling_rate" = Some sampling_rate →
  truediv (py_int 1000) sampling_rate = Ok units →
  aligner_outcome A B photo_data = Rsync_aligner A B units
  ∧ aligner_calls A B photo_data = [Call_Rsync_aligner A B units].
Proof.
  intros Hrate Hunits.
  unfold aligner_outcome, aligner_calls, instantiate_aligner, call_Rsync_aligner.
  step_monad. by rewrite Hrate, Hunits.
Qed.


Lemma script_run photometry_filenames behaviour_filenames w :
  script photometry_filenames behaviour_filenames w
  = match coresponding_files behaviour_filenames photometry_filenames with
    | Raise x => (Raise x, w)
    | Ok coresponding =>
        match loop_outcome coresponding with
        | Raise x => (Raise x, extend w (loop_calls coresponding))
        | Ok new =>
            (Ok {| out_coresponding := coresponding;
                   out_sessions := new.1;
                   out_sync_errors := new.2;
                   out_missing := missing_sessions coresponding |},
             printed (extend w (loop_calls coresponding))
               (summary (length new.1) (missing_sessions coresponding) new.2))
        end
    end.
Proof.
  unfold script. rewrite bind_run, lift_run.
  destruct (coresponding_files _ _) as [cf|]; [|done].
  rewrite bind_run, load_loop_run.
  destruct (loop_outcome cf) as [[sessions sync_errors]|]; [|done].
  simpl. unfold summary.
  destruct (missing_sessions cf) as [|m ms], sync_errors as [|se ses];
    repeat (rewrite ?bind_run, ?print_run, ?ret_run, ?for_each_print,
              ?printed_printed; simpl);
    rewrite ?app_nil_r, <- ?app_assoc; reflexivity.
Qed.

Lemma loop_outcome_app l1 l2 :
  loop_outcome (l1 ++ l2)
  = match loop_outcome l1 with
    | Ok new => frame new.1 new.2 <$> loop_outcome l2
    | Raise x => Raise x
    end.
Proof.
  unfold loop_outcome at 1. rewrite load_loop_app, load_loop_run. simpl.
  destruct (loop_outcome l1) as [new|x]; simpl; [|done].
  rewrite load_loop_run. done.
Qed.

Lemma loop_calls_app l1 l2 :
  loop_calls (l1 ++ l2)
  = loop_calls l1 ++ (if is_Ok (loop_outcome l1) then loop_calls l2 else []).
Proof.
  unfold loop_calls at 1. rewrite load_loop_app, load_loop_run. simpl.
  destruct (loop_outcome l1) as [new|x]; simpl; [|by rewrite app_nil_r].
  rewrite load_loop_run. done.
Qed.


Lemma elem_of_missing_sessions b (coresponding : list (string * option string)) :
  b ∈ missing_sessions coresponding ↔ (b, None) ∈ coresponding.
Proof.
  unfold missing_sessions. rewrite list_elem_of_omap. split.
  - intros ([b' [p|]] & Hin & Heq); simplify_eq. done.
  - intros Hin. by exists (b, None).
Qed.

Lemma missing_sessions_cons b p (rest : list (string * option string)) :
  missing_sessions ((b, p) :: rest)
  = match p with
    | None => b :: missing_sessions rest
    | Some _ => missing_sessions rest
    end.
Proof. by destruct p. Qed.

(** Every pair of a completed loop went one of three ways. *)
Lemma loop_partition coresponding new :
  Forall (λ entry, entry.2 = None ∨ Py.truthy entry.2 = true) coresponding →
  loop_outcome coresponding = Ok new →
  ∃ aligned,
    Forall2 loaded_from aligned new.1
    ∧ coresponding.*1 ≡ₚ aligned ++ missing_sessions coresponding ++ new.2.*1.
Proof.
  intros Hcf. revert new.
  induction Hcf as [|[b p] rest Hp _ IH]; intros new.
  - intros [= <-]. by exists [].
  - rewrite loop_outcome_cons.
    destruct (pair_outcome b p) as [new1|] eqn:Hpair; [|done].
    destruct (loop_outcome rest) as [new2|]; [|done].
    intros [= <-]. destruct (IH new2 eq_refl) as (aligned & Hal & Hperm).
    apply pair_outcome_Ok_inv in Hpair
      as [[Ht ->]|(q & session & photo_data & A & B & -> & Hreach & Hcase)].
    + destruct Hp as [Hp|Hp]; simpl in Hp; [|congruence]. subst p.
      exists aligned. split; [done|].
      rewrite fmap_cons, missing_sessions_cons, Hperm. simpl.
      apply Permutation_middle.
    + destruct Hreach as (Hs & _).
      destruct Hcase as [(aligner & _ & ->)|[_ ->]].
      * exists (b :: aligned). split.
        { constructor; [|done]. by exists session, photo_data, aligner. }
        rewrite fmap_cons, missing_sessions_cons, Hperm. done.
      * exists aligned. split; [done|].
        rewrite fmap_cons, missing_sessions_cons, Hperm. simpl.
        etrans; [apply Permutation_middle|]. f_equiv.
        apply Permutation_middle.
Qed.

Lemma summary_matching n missing sync_errors :
  matching_line n ∈ summary n missing sync_errors.
Proof. unfold summary. set_solver. Qed.

Lemma summary_missing n missing sync_errors b :
  b ∈ missing → missing_line b ∈ summary n missing sync_errors.
Proof.
  intros Hb. unfold summary. destruct missing as [|m ms]; [by inversion Hb|].
  apply elem_of_app. right. apply elem_of_app. left.
  apply list_elem_of_further. by apply list_elem_of_fmap_2.
Qed.

Lemma summary_sync n missing sync_errors (pair : string * string) :
  pair ∈ sync_errors → sync_line pair ∈ summary n missing sync_errors.
Proof.
  intros Hp. unfold summary. destruct sync_errors as [|se ses]; [by inversion Hp|].
  apply elem_of_app. right. apply elem_of_app. right.
  apply list_elem_of_further. by apply list_elem_of_fmap_2.
Qed.

End ScriptFacts.

(** ** The clock model, in exact arithmetic *)

Lemma clock_model_round_trip_exact (a b x : Q) :
  ¬ (a == 0)%Q →
  (ClockModel.B_to_A (ClockModel.fit a b) (ClockModel.A_to_B (ClockModel.fit a b) x) == x)%Q
  ∧ (ClockModel.A_to_B (ClockModel.fit a b) (ClockModel.B_to_A (ClockModel.fit a b) x) == x)%Q.
Proof.
  intros Ha. unfold ClockModel.B_to_A, ClockModel.A_to_B, ClockModel.fit. simpl.
  split; field; exact Ha.
Qed.

(** * The claims *)

(** C10.  [_get_file_info] is partial.  A file name that contains a '-'
    is [before ++ "-" ++ after] with no '-' in [before], and its key is
    [(subject, date)] where [subject] is the first 4 characters of the whole
    name (a prefix of the name, 4 long, or the whole name when it is
    shorter) and [date] is the first 10 characters of [after] (a prefix of
    [after], 10 long, or all of it when it is shorter), whatever else the
    name contains.  A file name without '-' raises [IndexError]. *)
Theorem get_file_info_partial (filename : string) :
  (∃ before after subject date rest_of_name rest_of_tail,
     filename = before +:+ String "-" after
     ∧ (∀ s1 s2, before ≠ s1 +:+ String "-" s2)
     ∧ _get_file_info filename = Ok (subject, date)
     ∧ filename = subject +:+ rest_of_name
     ∧ String.length subject = (4 `min` String.length filename)%nat
     ∧ after = date +:+ rest_of_tail
     ∧ String.length date = (10 `min` String.length after)%nat)
  ∨ ((∀ s1 s2, filename ≠ s1 +:+ String "-" s2)
     ∧ _get_file_info filename = Raise IndexError).
Proof.
  destruct (has_dash filename) eqn:Hd.
  - left. destruct (contains_first _ _ Hd) as (before & after & Hname & Hb).
    destruct (slice_to_prefix 4 filename) as [rest_of_name Hsubject].
    destruct (slice_to_prefix 10 after) as [rest_of_tail Hdate].
    exists before, after, (Py.slice_to 4 filename), (Py.slice_to 10 after),
      rest_of_name, rest_of_tail.
    split; [done|]. split; [by apply contains_false_iff|].
    split; [rewrite Hname at 1; rewrite get_file_info_at_dash by done;
            by rewrite <- Hname|].
    split; [done|]. split; [apply slice_to_length|].
    split; [done|apply slice_to_length].
  - right. split; [by apply contains_false_iff|by apply get_file_info_no_dash].
Qed.

(** C8.  On the behavioural names m001-2019-01-01.txt, m002-2019-01-01.txt
    and the photometry name m001-2019-01-01.ppd, the keys are
    (m001, 2019-01-01) and (m002, 2019-01-01); the first name is paired with
    the .ppd file, the second with [None], and it is the one missing
    session. *)
Theorem correspondence_example :
  _get_file_info "m001-2019-01-01.txt" = Ok ("m001", "2019-01-01")
  ∧ _get_file_info "m001-2019-01-01.ppd" = Ok ("m001", "2019-01-01")
  ∧ _get_file_info "m002-2019-01-01.txt" = Ok ("m002", "2019-01-01")
  ∧ coresponding_files ["m001-2019-01-01.txt"; "m002-2019-01-01.txt"]
                       ["m001-2019-01-01.ppd"]
    = Ok [("m001-2019-01-01.txt", Some "m001-2019-01-01.ppd");
          ("m002-2019-01-01.txt", None)]
  ∧ missing_sessions [("m001-2019-01-01.txt", Some "m001-2019-01-01.ppd");
                      ("m002-2019-01-01.txt", None)]
    = ["m002-2019-01-01.txt"].
Proof. repeat split; vm_compute; reflexivity. Qed.

(** C2, as stated: a behavioural file name without '-' makes the
    correspondence step raise [IndexError], so no entry at all is
    produced, not even for the well-formed name before it. *)
Lemma one_entry_each_counterexample :
  _get_file_info "notes.txt" = Raise IndexError
  ∧ coresponding_files ["m001-2019-01-01.txt"; "notes.txt"] ["m001-2019-01-01.ppd"]
    = Raise IndexError.
Proof. split; vm_compute; reflexivity. Qed.

(** C2, amended.  Whenever the correspondence step returns, and it does
    when every behavioural and every photometry file name contains a '-',
    the list it returns has exactly one entry per behavioural file name, in
    the order of the behavioural list; the second component of an entry is
    a photometry file name with the same key, or [None] when no photometry
    file name has that key. *)
Theorem coresponding_files_one_entry_each
    (behaviour_filenames photometry_filenames : list string) :
  (Forall (λ f, has_dash f = true) behaviour_filenames →
   Forall (λ f, has_dash f = true) photometry_filenames →
   ∃ out, coresponding_files behaviour_filenames photometry_filenames = Ok out)
  ∧ ∀ out,
      coresponding_files behaviour_filenames photometry_filenames = Ok out →
      out.*1 = behaviour_filenames
      ∧ Forall (λ entry,
          match entry.2 with
          | Some p => p ∈ photometry_filenames
                      ∧ _get_file_info p = _get_file_info entry.1
          | None => ∀ p, p ∈ photometry_filenames →
                         _get_file_info p ≠ _get_file_info entry.1
          end) out.
Proof.
  split; [apply coresponding_files_total|].
  intros out Hout. split; [by eapply coresponding_files_fst|].
  apply coresponding_files_paired in Hout.
  induction Hout as [|b [b' p] bs out (Hb & info & Hinfo & Hm) _ IH];
    constructor; [|done]. simpl in *; subst.
  destruct p as [p|].
  - destruct (next_match_Some_inv _ _ _ Hm) as (before & after & -> & _ & Hp).
    split; [|congruence]. set_solver.
  - intros p Hp. apply next_match_None_inv in Hm.
    rewrite Forall_forall in Hm. destruct (Hm p Hp) as (info' & -> & Hne).
    rewrite Hinfo. congruence.
Qed.

Lemma coresponding_files_one_entry_each_witness :
  ∃ out,
    coresponding_files Demo.behaviour_filenames Demo.photometry_filenames = Ok out
    ∧ out.*1 = Demo.behaviour_filenames.
Proof.
  destruct (coresponding_files_one_entry_each
              Demo.behaviour_filenames Demo.photometry_filenames)
    as [Hreturns Hentries].
  destruct Hreturns as [out Hout]; [repeat constructor..|].
  exists out. split; [exact Hout|]. apply (Hentries out Hout).
Defined.

(** C3, as stated: the key of m001-2019-01-01.txt is shared by two
    photometry file names, yet it is paired with neither: a name without
    '-' stands before them and the search raises [IndexError]. *)
Lemma first_match_counterexample :
  _get_file_info "m001-2019-01-01.txt" = Ok ("m001", "2019-01-01")
  ∧ _get_file_info "m001-2019-01-01a.ppd" = Ok ("m001", "2019-01-01")
  ∧ _get_file_info "m001-2019-01-01b.ppd" = Ok ("m001", "2019-01-01")
  ∧ coresponding_files ["m001-2019-01-01.txt"]
      ["notes.txt"; "m001-2019-01-01a.ppd"; "m001-2019-01-01b.ppd"]
    = Raise IndexError.
Proof. repeat split; vm_compute; reflexivity. Qed.

(** C3, amended.  When [p] is the first photometry file name whose key
    equals the key of the behavioural file name [b], and every photometry
    file name before [p] has a key, then [b] is paired with [p], whatever
    follows [p] in the list: later names, matching or not, well formed or
    not, are not looked at and raise nothing. *)
Theorem first_match_wins (b : string) (info : file_info)
    (before : list string) (p : string) (after : list string) :
  _get_file_info b = Ok info →
  Forall (other_key info) before →
  _get_file_info p = Ok info →
  coresponding_files [b] (before ++ p :: after) = Ok [(b, Some p)]
  ∧ ∀ behaviour_filenames out i,
      coresponding_files behaviour_filenames (before ++ p :: after) = Ok out →
      behaviour_filenames !! i = Some b →
      out !! i = Some (b, Some p).
Proof.
  intros Hb Hbefore Hp.
  pose proof (next_match_first info before p after Hbefore Hp) as Hm.
  split.
  - rewrite coresponding_files_cons, Hb. simpl. by rewrite Hm.
  - intros bs out i Hout Hi. apply coresponding_files_paired in Hout.
    destruct (Forall2_lookup_l _ _ _ _ _ Hout Hi)
      as ([b' p'] & Hi' & Hb' & info' & Hinfo' & Hm').
    simpl in *. subst b'. rewrite Hi'. repeat f_equal. congruence.
Qed.

Lemma first_match_wins_witness :
  coresponding_files ["m001-2019-01-01.txt"]
    (["m002-2019-01-01.ppd"] ++ "m001-2019-01-01a.ppd"
       :: ["m001-2019-01-01b.ppd"; "notes.txt"])
  = Ok [("m001-2019-01-01.txt", Some "m001-2019-01-01a.ppd")].
Proof.
  apply (first_match_wins "m001-2019-01-01.txt" ("m001", "2019-01-01")
           ["m002-2019-01-01.ppd"] "m001-2019-01-01a.ppd"
           ["m001-2019-01-01b.ppd"; "notes.txt"]).
  - reflexivity.
  - repeat constructor. exists ("m002", "2019-01-01"). split; [reflexivity|].
    intros Heq. discriminate Heq.
  - reflexivity.
Defined.

(** C4, as stated: the key of m002-2019-01-01.txt matches no photometry
    file name, yet no entry with [None] is recorded: the photometry name
    without '-' makes the search raise [IndexError]. *)
Lemma no_match_counterexample :
  _get_file_info "m002-2019-01-01.txt" = Ok ("m002", "2019-01-01")
  ∧ _get_file_info "notes.txt" = Raise IndexError
  ∧ coresponding_files ["m002-2019-01-01.txt"] ["notes.txt"] = Raise IndexError.
Proof. repeat split; vm_compute; reflexivity. Qed.

Section Claims.

Context `{Collaborators pyobj}.

(** C4, amended.  When every photometry file name has a key and none of
    these keys is the key of the behavioural file name [b], the search for
    [b] raises nothing and the entry of [b] is [(b, None)]; in every
    correspondence list the step returns, [b] is among the missing
    sessions; and whenever the script reaches its summary, [b] is in
    [missing_sessions] and its line is printed. *)
Theorem no_match_is_missing (b : string) (info : file_info)
    (photometry_filenames : list string) :
  _get_file_info b = Ok info →
  Forall (other_key info) photometry_filenames →
  coresponding_files [b] photometry_filenames = Ok [(b, None)]
  ∧ (∀ behaviour_filenames out i,
       coresponding_files behaviour_filenames photometry_filenames = Ok out →
       behaviour_filenames !! i = Some b →
       out !! i = Some (b, None) ∧ b ∈ missing_sessions out)
  ∧ (∀ behaviour_filenames (w : world pyobj) o w',
       script photometry_filenames behaviour_filenames w = (Ok o, w') →
       b ∈ behaviour_filenames →
       b ∈ out_missing o ∧ missing_line b ∈ stdout w').
Proof.
  intros Hb Hps.
  pose proof (next_match_none info photometry_filenames Hps) as Hm.
  assert (∀ bs out i,
            coresponding_files bs photometry_filenames = Ok out →
            bs !! i = Some b →
            out !! i = Some (b, None) ∧ b ∈ missing_sessions out) as Hentry.
  { intros bs out i Hout Hi. apply coresponding_files_paired in Hout.
    destruct (Forall2_lookup_l _ _ _ _ _ Hout Hi)
      as ([b' p'] & Hi' & Hb' & info' & Hinfo' & Hm').
    simpl in *. subst b'.
    assert (p' = None) as -> by congruence.
    split; [done|]. apply elem_of_missing_sessions.
    by eapply list_elem_of_lookup_2. }
  split; [|split; [done|]].
  - rewrite coresponding_files_cons, Hb. simpl. by rewrite Hm.
  - intros bs w o w'. rewrite script_run.
    destruct (coresponding_files bs photometry_filenames) as [cf|] eqn:Hcf; [|done].
    destruct (loop_outcome cf) as [new|]; [|done].
    intros [= <- <-] [i Hi]%list_elem_of_lookup_1. simpl.
    destruct (Hentry bs cf i Hcf Hi) as [_ Hmiss].
    split; [done|]. apply elem_of_app. right. by apply summary_missing.
Qed.

(** C1.  When the constructor raises [RsyncError] for the pair [(b, p)],
    the pair is appended to [sync_errors], [sessions] is left as it was,
    and the loop goes on with the remaining pairs.  What the pairs before
    and after contribute is what they contribute without that pair: the
    final lists differ from those of the run without [(b, p)] by that one
    entry of [sync_errors]. *)
Theorem rsync_error_is_collected (b p : string)
    (session : session_obj pyobj) (photo_data : gmap string pyobj)
    (A B sampling_rate units : pyobj)
    (before after : list (string * option string))
    sessions sync_errors (w : world pyobj) sessions1 sync_errors1 w1 :
  reaches_alignment b p session photo_data A B →
  photo_data !! "sampling_rate" = Some sampling_rate →
  truediv (py_int 1000) sampling_rate = Ok units →
  Rsync_aligner A B units = Raise RsyncError →
  load_loop before sessions sync_errors w = (Ok (sessions1, sync_errors1), w1) →
  ∃ w2,
    load_pair sessions1 sync_errors1 b (Some p) w1
    = (Ok (sessions1, sync_errors1 ++ [(b, p)]), w2)
    ∧ load_loop (before ++ (b, Some p) :: after) sessions sync_errors w
      = load_loop after sessions1 (sync_errors1 ++ [(b, p)]) w2
    ∧ (load_loop (before ++ (b, Some p) :: after) sessions sync_errors w).1
      = frame sessions1 (sync_errors1 ++ [(b, p)]) <$> loop_outcome after
    ∧ (load_loop (before ++ after) sessions sync_errors w).1
      = frame sessions1 sync_errors1 <$> loop_outcome after.
Proof.
  intros Hreach Hrate Hunits Hraise Hbefore.
  destruct (aligner_units A B _ _ _ Hrate Hunits) as [Hout Hcalls].
  destruct (pair_reached _ _ _ _ _ _ Hreach) as [Hpair Hpcalls].
  rewrite Hout, Hraise in Hpair. simpl in Hpair.
  exists (extend w1 (pair_calls b (Some p))).
  assert (load_pair sessions1 sync_errors1 b (Some p) w1
          = (Ok (sessions1, sync_errors1 ++ [(b, p)]),
             extend w1 (pair_calls b (Some p)))) as Hstep.
  { rewrite load_pair_run, Hpair. simpl. unfold frame. simpl.
    by rewrite app_nil_r. }
  split; [done|].
  assert (load_loop (before ++ (b, Some p) :: after) sessions sync_errors w
          = load_loop after sessions1 (sync_errors1 ++ [(b, p)])
              (extend w1 (pair_calls b (Some p)))) as Hloop.
  { rewrite load_loop_app, Hbefore. cbn [fst snd].
    by rewrite load_loop_cons, Hstep. }
  split; [done|]. split.
  - rewrite Hloop, load_loop_run. done.
  - rewrite load_loop_app, Hbefore. simpl. rewrite load_loop_run. done.
Qed.

(** An exception other than [RsyncError] raised in the [try] for the
    pair [(b, p)] (by the division that computes [units_B] or by the
    constructor) is not caught: the loop stops there with that exception,
    after the calls made for the pairs before and for [(b, p)] and none
    for the pairs after; the script raises it too, prints no summary and
    leaves no [sync_errors] list behind. *)
Lemma other_exception_aborts (b p : string)
    (session : session_obj pyobj) (photo_data : gmap string pyobj)
    (A B : pyobj) (x : exn)
    (before after : list (string * option string)) :
  reaches_alignment b p session photo_data A B →
  aligner_outcome A B photo_data = Raise x →
  is_RsyncError x = false →
  is_Ok (loop_outcome before) = true →
  let made :=
    loop_calls before
    ++ [Call_Session (os_path_join behaviour_data_folder b);
        Call_import_ppd (os_path_join photometry_data_folder p)]
    ++ aligner_calls A B photo_data in
  (∀ sessions sync_errors (w : world pyobj),
     load_loop (before ++ (b, Some p) :: after) sessions sync_errors w
     = (Raise x, extend w made))
  ∧ (∀ photometry_filenames behaviour_filenames (w : world pyobj),
       coresponding_files behaviour_filenames photometry_filenames
       = Ok (before ++ (b, Some p) :: after) →
       script photometry_filenames behaviour_filenames w = (Raise x, extend w made)
       ∧ stdout (extend w made) = stdout w).
Proof.
  intros Hreach Hraise Hx Hbefore made.
  destruct (pair_reached _ _ _ _ _ _ Hreach) as [Hpair Hpcalls].
  rewrite Hraise, Hx in Hpair.
  assert (loop_outcome (before ++ (b, Some p) :: after) = Raise x) as Hout.
  { rewrite loop_outcome_app. destruct (loop_outcome before); [|done].
    by rewrite loop_outcome_cons, Hpair. }
  assert (loop_calls (before ++ (b, Some p) :: after) = made) as Hcalls.
  { rewrite loop_calls_app, Hbefore, loop_calls_cons, Hpair, Hpcalls. simpl.
    by rewrite app_nil_r. }
  split.
  - intros s e w. by rewrite load_loop_run, Hout, Hcalls.
  - intros ps bs w Hcf. split; [|done].
    by rewrite script_run, Hcf, Hout, Hcalls.
Qed.


(** C7.  When the script completes, every behavioural file name is in
    exactly one of the three collections: the behavioural list is a
    permutation of the names whose sessions are in [sessions], the names in
    [missing_sessions] and the behavioural names in [sync_errors].  What
    was printed is the summary, line by line: the count line, which holds
    the number of sessions in decimal; when a session is missing, a header
    and for every missing session a line holding its name; when a
    synchronisation failed, a header and for every failure a line holding
    the names of the two files.  (["010"] is the newline character.) *)
Theorem every_file_accounted_for
    (photometry_filenames behaviour_filenames : list string)
    (w : world pyobj) o w' :
  script photometry_filenames behaviour_filenames w = (Ok o, w') →
  (∃ aligned,
     Forall2 loaded_from aligned (out_sessions o)
     ∧ behaviour_filenames
       ≡ₚ aligned ++ out_missing o ++ (out_sync_errors o).*1)
  ∧ stdout w'
    = stdout w
      ++ [String "010"
            ("Matching behaviour and photometry data found for "
             +:+ pretty (length (out_sessions o)) +:+ " sessions.")]
      ++ match out_missing o with
         | [] => []
         | _ :: _ =>
             String "010"
               " No matching photometry data file found for behaviour sessions:"
             :: ((λ b_file_name, "    " +:+ b_file_name) <$> out_missing o)
         end
      ++ match out_sync_errors o with
         | [] => []
         | _ :: _ =>
             String "010" "Sync pulses could not be aligned for sessions:"
             :: ((λ pair, "    " +:+ pair.1 +:+ " : " +:+ pair.2)
                   <$> out_sync_errors o)
         end
  ∧ String "010"
      ("Matching behaviour and photometry data found for "
       +:+ pretty (length (out_sessions o)) +:+ " sessions.") ∈ stdout w'
  ∧ (∀ b_file_name, b_file_name ∈ out_missing o →
       "    " +:+ b_file_name ∈ stdout w')
  ∧ (∀ b_file_name p_file_name,
       (b_file_name, p_file_name) ∈ out_sync_errors o →
       "    " +:+ b_file_name +:+ " : " +:+ p_file_name ∈ stdout w').
Proof.
  rewrite script_run.
  destruct (coresponding_files _ _) as [cf|] eqn:Hcf; [|done].
  destruct (loop_outcome cf) as [new|] eqn:Hloop; [|done].
  intros [= <- <-]. simpl.
  split; [|split; [done|]].
  - destruct (loop_partition cf new) as (aligned & Hal & Hperm);
      [by eapply coresponding_files_truthy|done|].
    exists aligned. split; [done|].
    by rewrite <- (coresponding_files_fst _ _ _ Hcf).
  - split; [|split].
    + apply elem_of_app. right. apply summary_matching.
    + intros b Hb. apply elem_of_app. right. by apply summary_missing.
    + intros b p Hp. apply elem_of_app. right.
      by apply (summary_sync _ _ _ (b, p)).
Qed.

End Claims.

(** ** Malformed input to the constructor *)

Lemma strictly_increasing_false (xs : list Q) i t t' :
  xs !! i = Some t → xs !! S i = Some t' → (t' <= t)%Q →
  SpecAligner.strictly_increasing xs = false.
Proof.
  revert i. induction xs as [|x [|y xs] IH]; intros i Ht Ht' Hle.
  - done.
  - by destruct i.
  - destruct i as [|i].
    + simpl in Ht, Ht'. simplify_eq.
      apply Qle_bool_iff in Hle.
      change (negb (Qle_bool t' t)
              && SpecAligner.strictly_increasing (t' :: xs) = false).
      by rewrite Hle.
    + change (negb (Qle_bool y x)
              && SpecAligner.strictly_increasing (y :: xs) = false).
      rewrite (IH i Ht Ht' Hle). apply andb_false_r.
Qed.

Section MalformedInput.

Import SpecAligner.

Context (match_and_fit : list Q → list Q → Q → option ClockModel.model)
  (join : string → string → string)
  (load_session : string → result (session_obj obj))
  (load_ppd : string → result (gmap string obj))
  (spec_world : Collaborators obj
     := collaborators match_and_fit join load_session load_ppd).
#[local] Existing Instance spec_world.

(** C9.  With the constructor of the specification, malformed input to the
    construction for the pair [(b, p)] is fatal.  When the unit scale
    [1000 / sampling_rate] is not positive, or one of the two pulse
    sequences is empty, or one of them holds a pulse that is not later than
    the pulse before it, the constructor signals [MalformedInput], which is
    not an [RsyncError]: the loop stops there with that exception, after
    the calls made for the pairs before and for [(b, p)] and none for the
    pairs after; the script raises it too, prints no summary and the pair
    is in no [sync_errors] list. *)
Theorem malformed_input_aborts (b p : string)
    (session : session_obj obj) (photo_data : gmap string obj)
    (pulse_times_A pulse_times_B : list Q) (sampling_rate : Q)
    (before after : list (string * option string)) :
  reaches_alignment b p session photo_data
    (Sequence pulse_times_A) (Sequence pulse_times_B) →
  photo_data !! "sampling_rate" = Some (Number sampling_rate) →
  ¬ (sampling_rate == 0)%Q →
  ((1000 / sampling_rate <= 0)%Q
   ∨ pulse_times_A = []
   ∨ pulse_times_B = []
   ∨ (∃ i t t', pulse_times_A !! i = Some t ∧ pulse_times_A !! S i = Some t'
                ∧ (t' <= t)%Q)
   ∨ (∃ i t t', pulse_times_B !! i = Some t ∧ pulse_times_B !! S i = Some t'
                ∧ (t' <= t)%Q)) →
  is_Ok (loop_outcome before) = true →
  let x := OtherError "MalformedInput" in
  let made :=
    loop_calls before
    ++ [Call_Session (join behaviour_data_folder b);
        Call_import_ppd (join photometry_data_folder p);
        Call_Rsync_aligner (Sequence pulse_times_A) (Sequence pulse_times_B)
          (Number (1000 / sampling_rate))] in
  Rsync_aligner (Sequence pulse_times_A) (Sequence pulse_times_B)
    (Number (1000 / sampling_rate)) = Raise x
  ∧ is_RsyncError x = false
  ∧ (∀ sessions sync_errors (w : world obj),
       load_loop (before ++ (b, Some p) :: after) sessions sync_errors w
       = (Raise x, extend w made))
  ∧ (∀ photometry_filenames behaviour_filenames (w : world obj),
       coresponding_files behaviour_filenames photometry_filenames
       = Ok (before ++ (b, Some p) :: after) →
       script photometry_filenames behaviour_filenames w = (Raise x, extend w made)
       ∧ stdout (extend w made) = stdout w).
Proof.
  intros Hreach Hrate Hnz Hbad Hbefore x made.
  assert (malformed pulse_times_A pulse_times_B (1000 / sampling_rate) = true)
    as Hcheck.
  { unfold malformed.
    destruct Hbad as [Hscale|[->|[->|[(i & t & t' & Ht & Ht' & Hle)
                                     |(i & t & t' & Ht & Ht' & Hle)]]]].
    - apply Qle_bool_iff in Hscale. by rewrite Hscale.
    - by rewrite orb_true_r.
    - by rewrite !orb_true_r.
    - rewrite (strictly_increasing_false _ _ _ _ Ht Ht' Hle). simpl.
      by rewrite !orb_true_r.
    - rewrite (strictly_increasing_false _ _ _ _ Ht Ht' Hle). simpl.
      by rewrite !orb_true_r. }
  assert (truediv (py_int 1000) (Number sampling_rate)
          = Ok (Number (1000 / sampling_rate))) as Hunits.
  { simpl. destruct (Qeq_bool sampling_rate 0) eqn:Hz; [|done].
    by apply Qeq_bool_iff in Hz. }
  destruct (aligner_units (Sequence pulse_times_A) (Sequence pulse_times_B)
              _ _ _ Hrate Hunits) as [Hout Hcalls].
  assert (Rsync_aligner (Sequence pulse_times_A) (Sequence pulse_times_B)
            (Number (1000 / sampling_rate)) = Raise x) as Hraise.
  { simpl. by rewrite Hcheck. }
  split; [done|]. split; [done|].
  rewrite <- Hout in Hraise.
  pose proof (other_exception_aborts b p session photo_data _ _ x before after
                Hreach Hraise eq_refl Hbefore) as Habort.
  simpl in Habort. rewrite Hcalls in Habort. exact Habort.
Qed.

End MalformedInput.

(** * The claims on the concrete world *)

Lemma no_match_is_missing_witness :
  coresponding_files ["m002-2019-01-01.txt"] Demo.photometry_filenames
  = Ok [("m002-2019-01-01.txt", None)].
Proof.
  apply (@no_match_is_missing Demo.obj Demo.collaborators
           "m002-2019-01-01.txt" ("m002", "2019-01-01")
           Demo.photometry_filenames).
  - reflexivity.
  - repeat constructor.
    + exists ("m001", "2019-01-01"). split; [reflexivity|discriminate].
    + exists ("m003", "2019-01-01"). split; [reflexivity|discriminate].
Defined.

Lemma rsync_error_is_collected_witness :
  ∃ sessions1 sync_errors1 w1,
    load_loop [("m001-2019-01-01.txt", Some "m001-2019-01-01.ppd");
               ("m002-2019-01-01.txt", None)] [] [] init_world
    = (Ok (sessions1, sync_errors1), w1)
    ∧ (load_loop ([("m001-2019-01-01.txt", Some "m001-2019-01-01.ppd");
                   ("m002-2019-01-01.txt", None)]
                  ++ ("m003-2019-01-01.txt", Some "m003-2019-01-01.ppd")
                  :: [("m001-2019-01-01.txt", Some "m001-2019-01-01.ppd")])
         [] [] init_world).1
      = frame sessions1
          (sync_errors1 ++ [("m003-2019-01-01.txt", "m003-2019-01-01.ppd")])
        <$> loop_outcome [("m001-2019-01-01.txt", Some "m001-2019-01-01.ppd")].
Proof.
  eexists _, _, _. split; [vm_compute; reflexivity|].
  edestruct (@rsync_error_is_collected Demo.obj Demo.collaborators
               "m003-2019-01-01.txt" "m003-2019-01-01.ppd")
    as (w2 & _ & _ & Hres & _); [| | | | |exact Hres].
  - repeat split; reflexivity.
  - reflexivity.
  - reflexivity.
  - reflexivity.
  - vm_compute; reflexivity.
Defined.

Lemma other_exception_aborts_witness :
  (script ["m001-2019-01-01.ppd"; "m004-2019-01-01.ppd"]
          ["m001-2019-01-01.txt"; "m004-2019-01-01.txt"; "m002-2019-01-01.txt"]
          (init_world (pyobj := Demo.obj))).1
  = Raise ZeroDivisionError.
Proof.
  edestruct (@other_exception_aborts Demo.obj Demo.collaborators
               "m004-2019-01-01.txt" "m004-2019-01-01.ppd")
    with (x := ZeroDivisionError)
         (before := [("m001-2019-01-01.txt", Some "m001-2019-01-01.ppd")])
         (after := [("m002-2019-01-01.txt", @None string)])
    as [_ Hscript].
  - repeat split; reflexivity.
  - vm_compute; reflexivity.
  - reflexivity.
  - vm_compute; reflexivity.
  - destruct (Hscript ["m001-2019-01-01.ppd"; "m004-2019-01-01.ppd"]
                ["m001-2019-01-01.txt"; "m004-2019-01-01.txt";
                 "m002-2019-01-01.txt"] init_world) as [Hrun _].
    + vm_compute; reflexivity.
    + rewrite Hrun. reflexivity.
Defined.

Lemma malformed_input_aborts_witness :
  (script (H := SpecAligner.collaborators SpecAligner.demo_fit Demo.join
                  SpecAligner.demo_session SpecAligner.demo_ppd)
     ["m001-2019-01-01.ppd"; "m002-2019-01-01.ppd"]
     ["m001-2019-01-01.txt"; "m002-2019-01-01.txt"; "m003-2019-01-01.txt"]
     init_world).1
  = Raise (OtherError "MalformedInput").
Proof.
  edestruct (malformed_input_aborts SpecAligner.demo_fit Demo.join
               SpecAligner.demo_session SpecAligner.demo_ppd
               "m002-2019-01-01.txt" "m002-2019-01-01.ppd")
    with (pulse_times_A := [0; 1000; 2000]%Q) (pulse_times_B := @nil Q)
         (sampling_rate := 130%Q)
         (before := [("m001-2019-01-01.txt", Some "m001-2019-01-01.ppd")])
         (after := [("m003-2019-01-01.txt", @None string)])
    as (_ & _ & _ & Hscript).
  - repeat split; reflexivity.
  - reflexivity.
  - intros Hzero. discriminate Hzero.
  - right. right. left. reflexivity.
  - vm_compute; reflexivity.
  - destruct (Hscript ["m001-2019-01-01.ppd"; "m002-2019-01-01.ppd"]
                ["m001-2019-01-01.txt"; "m002-2019-01-01.txt";
                 "m003-2019-01-01.txt"] init_world) as [Hrun _].
    + vm_compute; reflexivity.
    + rewrite Hrun. reflexivity.
Defined.

Lemma every_file_accounted_for_witness :
  ∃ o w',
    script Demo.photometry_filenames Demo.behaviour_filenames init_world
    = (Ok o, w')
    ∧ stdout w'
      = [String "010"
           "Matching behaviour and photometry data found for 1 sessions.";
         String "010"
           " No matching photometry data file found for behaviour sessions:";
         "    m002-2019-01-01.txt";
         String "010" "Sync pulses could not be aligned for sessions:";
         "    m003-2019-01-01.txt : m003-2019-01-01.ppd"]
    ∧ "    m002-2019-01-01.txt" ∈ stdout w'
    ∧ "    m003-2019-01-01.txt : m003-2019-01-01.ppd" ∈ stdout w'.
Proof.
  eexists _, _. split; [vm_compute; reflexivity|].
  edestruct (@every_file_accounted_for Demo.obj Demo.collaborators
               Demo.photometry_filenames Demo.behaviour_filenames init_world)
    as (_ & Hout & _ & Hmissing & Hsync).
  - vm_compute; reflexivity.
  - split; [rewrite Hout; vm_compute; reflexivity|]. split.
    + apply (Hmissing "m002-2019-01-01.txt"). vm_compute.
      apply list_elem_of_here.
    + apply (Hsync "m003-2019-01-01.txt" "m003-2019-01-01.ppd"). vm_compute.
      apply list_elem_of_here.
Defined.

(** * Further properties of the correspondence step *)

Lemma slice_to_exact s rest :
  Py.slice_to (String.length s) (s +:+ rest) = s.
Proof.
  induction s as [|c s IH].
  - by destruct rest.
  - rewrite append_String. simpl. by rewrite IH.
Qed.

Lemma append_assoc_string (s1 s2 s3 : string) :
  (s1 +:+ s2) +:+ s3 = s1 +:+ (s2 +:+ s3).
Proof.
  induction s1 as [|c s1 IH]; [done|].
  rewrite !append_String. by rewrite IH.
Qed.

Lemma get_file_info_Raise filename e :
  _get_file_info filename = Raise e → e = IndexError ∧ has_dash filename = false.
Proof.
  destruct (has_dash filename) eqn:Hd.
  - destruct (get_file_info_dash_Ok _ Hd) as [info ->]. done.
  - rewrite (get_file_info_no_dash _ Hd). by intros [= <-].
Qed.

Lemma next_match_Raise info photometry_filenames e :
  next_match info photometry_filenames = Raise e →
  e = IndexError ∧ ∃ f, f ∈ photometry_filenames ∧ has_dash f = false.
Proof.
  induction photometry_filenames as [|q rest IH]; simpl; [done|].
  destruct (_get_file_info q) as [info'|x] eqn:Hq; simpl.
  - destruct (decide (info = info')); [done|].
    intros Hrest. destruct (IH Hrest) as (-> & f & Hf & Hd).
    split; [done|]. exists f. split; [by right|done].
  - intros [= <-]. apply get_file_info_Raise in Hq as [-> Hd].
    split; [done|]. exists q. split; [by left|done].
Qed.

(** X1.  A file name made of a subject ID without '-' whose first four
    characters are [subject], a '-', a ten-character date and any rest has
    the key [(subject, date)]: what follows the fourth character of the
    subject ID and what follows the date play no part. *)
Theorem key_ignores_the_rest (subject more date rest : string) :
  String.length subject = 4%nat →
  String.length date = 10%nat →
  has_dash (subject +:+ more) = false →
  _get_file_info (subject +:+ more +:+ String dash (date +:+ rest))
  = Ok (subject, date).
Proof.
  intros Hs Hdate Hd.
  rewrite <- append_assoc_string, (get_file_info_at_dash _ _ Hd).
  rewrite <- Hdate, slice_to_exact.
  by rewrite !append_assoc_string, <- Hs, slice_to_exact.
Qed.

Lemma key_ignores_the_rest_witness :
  _get_file_info ("m001" +:+ "7b" +:+ String dash ("2019-01-01" +:+ "-120000.txt"))
  = Ok ("m001", "2019-01-01").
Proof.
  apply (key_ignores_the_rest "m001" "7b" "2019-01-01" "-120000.txt");
    reflexivity.
Defined.

(** X2.  The correspondence step raises nothing but [IndexError], and only
    when one of the file names it was given contains no '-'. *)
Theorem correspondence_raises_only_IndexError
    (behaviour_filenames photometry_filenames : list string) (e : exn) :
  coresponding_files behaviour_filenames photometry_filenames = Raise e →
  e = IndexError
  ∧ ∃ f, f ∈ behaviour_filenames ++ photometry_filenames ∧ has_dash f = false.
Proof.
  induction behaviour_filenames as [|b rest IH]; [done|].
  rewrite coresponding_files_cons.
  destruct (_get_file_info b) as [info|x] eqn:Hb; simpl.
  - destruct (next_match info photometry_filenames) as [p|x] eqn:Hm; simpl.
    + destruct (coresponding_files rest photometry_filenames) as [out|x];
        simpl; [done|].
      intros [= <-]. destruct (IH eq_refl) as (-> & f & Hf & Hd).
      split; [done|]. exists f. split; [by right|done].
    + intros [= <-]. apply next_match_Raise in Hm as (-> & f & Hf & Hd).
      split; [done|]. exists f. split; [|done].
      right. apply elem_of_app. by right.
  - intros [= <-]. apply get_file_info_Raise in Hb as [-> Hd].
    split; [done|]. exists b. split; [by left|done].
Qed.

Lemma correspondence_raises_only_IndexError_witness :
  IndexError = IndexError
  ∧ ∃ f, f ∈ ["m001-2019-01-01.txt"] ++ [".DS_Store"; "m001-2019-01-01.ppd"]
         ∧ has_dash f = false.
Proof.
  apply (correspondence_raises_only_IndexError
           ["m001-2019-01-01.txt"] [".DS_Store"; "m001-2019-01-01.ppd"]).
  vm_compute. reflexivity.
Defined.

(** X3.  The partner of a behavioural file name depends on its key alone:
    two behavioural file names with the same key are paired with the same
    photometry file name (or both with none), so one photometry file can
    serve several sessions. *)
Theorem same_key_same_partner
    (behaviour_filenames photometry_filenames : list string)
    (out : list (string * option string)) (entry1 entry2 : string * option string) :
  coresponding_files behaviour_filenames photometry_filenames = Ok out →
  entry1 ∈ out →
  entry2 ∈ out →
  _get_file_info entry1.1 = _get_file_info entry2.1 →
  entry1.2 = entry2.2.
Proof.
  intros Hout H1 H2 Hkey. apply coresponding_files_paired in Hout.
  apply list_elem_of_lookup_1 in H1 as [i Hi], H2 as [j Hj].
  destruct (Forall2_lookup_r _ _ _ _ _ Hout Hi) as (b1 & _ & <- & k1 & Hk1 & Hm1).
  destruct (Forall2_lookup_r _ _ _ _ _ Hout Hj) as (b2 & _ & <- & k2 & Hk2 & Hm2).
  congruence.
Qed.

Lemma same_key_same_partner_witness :
  ("m001-2019-01-01-am.txt", Some "m001-2019-01-01.ppd").2
  = ("m001-2019-01-01-pm.txt", Some "m001-2019-01-01.ppd").2.
Proof.
  apply (same_key_same_partner
           ["m001-2019-01-01-am.txt"; "m001-2019-01-01-pm.txt"]
           ["m001-2019-01-01.ppd"]
           [("m001-2019-01-01-am.txt", Some "m001-2019-01-01.ppd");
            ("m001-2019-01-01-pm.txt", Some "m001-2019-01-01.ppd")]).
  - vm_compute. reflexivity.
  - set_solver.
  - set_solver.
  - reflexivity.
Defined.

(** X4.  The correspondence list of a concatenation of behavioural lists
    is the concatenation of their correspondence lists, and the first
    failure is the failure of the whole: the entry of a behavioural file
    does not depend on the other behavioural files. *)
Theorem coresponding_files_app (l1 l2 photometry_filenames : list string) :
  coresponding_files (l1 ++ l2) photometry_filenames
  = (out1 ← coresponding_files l1 photometry_filenames;
     out2 ← coresponding_files l2 photometry_filenames;
     Ok (out1 ++ out2)).
Proof.
  induction l1 as [|b l1 IH].
  - simpl. by destruct (coresponding_files l2 photometry_filenames).
  - rewrite <- app_comm_cons, !coresponding_files_cons, IH.
    destruct (_get_file_info b) as [info|]; simpl; [|done].
    destruct (next_match info photometry_filenames) as [p|]; simpl; [|done].
    destruct (coresponding_files l1 photometry_filenames) as [out1|]; simpl; [|done].
    by destruct (coresponding_files l2 photometry_filenames).
Qed.

(** * Further properties of the loading loop *)

Section LoopFacts.

Context `{Collaborators pyobj}.

Lemma aligner_outcome_Ok_inv A B photo_data aligner :
  aligner_outcome A B photo_data = Ok aligner →
  ∃ sampling_rate units,
    photo_data !! "sampling_rate" = Some sampling_rate
    ∧ truediv (py_int 1000) sampling_rate = Ok units
    ∧ Rsync_aligner A B units = Ok aligner.
Proof.
  unfold aligner_outcome, instantiate_aligner, call_Rsync_aligner. step_monad.
  destruct (photo_data !! "sampling_rate") as [rate|]; [|done].
  destruct (truediv (py_int 1000) rate) as [units|] eqn:Hu; [|done].
  simpl. intros Hal. by exists rate, units.
Qed.

Lemma loop_outcome_sessions coresponding new session :
  loop_outcome coresponding = Ok new →
  session ∈ new.1 ↔
  ∃ b p, (b, Some p) ∈ coresponding ∧ pair_outcome b (Some p) = Ok ([session], []).
Proof.
  revert new. induction coresponding as [|[b0 p0] rest IH]; intros new.
  - intros [= <-]. simpl. split; [by intros ?%elem_of_nil|].
    by intros (? & ? & ?%elem_of_nil & _).
  - rewrite loop_outcome_cons.
    destruct (pair_outcome b0 p0) as [new1|] eqn:Hpair; [|done].
    destruct (loop_outcome rest) as [new2|]; [|done].
    intros [= <-]. simpl. rewrite elem_of_app, (IH new2 eq_refl). split.
    + intros [Hin|(b & p & Hin & Hp)].
      * exists b0. pose proof Hpair as Hpair'.
        apply pair_outcome_Ok_inv in Hpair
          as [[_ ->]|(q & s0 & pd & A & B & -> & _ & [(al & _ & ->)|[_ ->]])];
          simpl in Hin; try by apply elem_of_nil in Hin.
        apply list_elem_of_singleton in Hin as ->.
        exists q. split; [by left|done].
      * exists b, p. split; [by right|done].
    + intros (b & p & Hin & Hp). apply elem_of_cons in Hin as [[= <- <-]|Hin].
      * left. rewrite Hp in Hpair. injection Hpair as <-. by left.
      * right. by exists b, p.
Qed.

Lemma loop_outcome_errors coresponding new b p :
  loop_outcome coresponding = Ok new →
  (b, p) ∈ new.2 ↔
  (b, Some p) ∈ coresponding ∧ pair_outcome b (Some p) = Ok ([], [(b, p)]).
Proof.
  revert new. induction coresponding as [|[b0 p0] rest IH]; intros new.
  - intros [= <-]. simpl. split; [by intros ?%elem_of_nil|].
    by intros [?%elem_of_nil _].
  - rewrite loop_outcome_cons.
    destruct (pair_outcome b0 p0) as [new1|] eqn:Hpair; [|done].
    destruct (loop_outcome rest) as [new2|]; [|done].
    intros [= <-]. simpl. rewrite elem_of_app, (IH new2 eq_refl). split.
    + intros [Hin|[Hin Hp]].
      * pose proof Hpair as Hpair'.
        apply pair_outcome_Ok_inv in Hpair
          as [[_ ->]|(q & s0 & pd & A & B & -> & _ & [(al & _ & ->)|[_ ->]])];
          simpl in Hin; try by apply elem_of_nil in Hin.
        apply list_elem_of_singleton in Hin as [= -> ->].
        split; [by left|done].
      * split; [by right|done].
    + intros [Hin Hp]. apply elem_of_cons in Hin as [[= <- <-]|Hin].
      * left. rewrite Hp in Hpair. injection Hpair as <-. by left.
      * by right.
Qed.

Lemma pair_outcome_session_inv b p session :
  pair_outcome b (Some p) = Ok ([session], []) →
  ∃ loaded photo_data A B aligner,
    reaches_alignment b p loaded photo_data A B
    ∧ aligner_outcome A B photo_data = Ok aligner
    ∧ session = attach loaded photo_data aligner.
Proof.
  intros Hpair.
  apply pair_outcome_Ok_inv in Hpair
    as [[_ [=]]|(q & s0 & pd & A & B & [= <-] & Hreach & Hcase)].
  destruct Hcase as [(al & Hal & [= ->])|[_ [=]]].
  by exists s0, pd, A, B, al.
Qed.

Lemma pair_outcome_error_iff b p :
  pair_outcome b (Some p) = Ok ([], [(b, p)]) ↔
  ∃ loaded photo_data A B,
    reaches_alignment b p loaded photo_data A B
    ∧ aligner_outcome A B photo_data = Raise RsyncError.
Proof.
  split.
  - intros Hpair.
    apply pair_outcome_Ok_inv in Hpair
      as [[_ [=]]|(q & s0 & pd & A & B & [= <-] & Hreach & Hcase)].
    destruct Hcase as [(al & _ & [=])|[Hal _]].
    by exists s0, pd, A, B.
  - intros (s0 & pd & A & B & Hreach & Hal).
    destruct (pair_reached _ _ _ _ _ _ Hreach) as [-> _]. by rewrite Hal.
Qed.

Lemma missing_sessions_sublist (coresponding : list (string * option string)) :
  missing_sessions coresponding `sublist_of` coresponding.*1.
Proof.
  induction coresponding as [|[b [p|]] rest IH]; [done|..];
    rewrite missing_sessions_cons, fmap_cons; simpl.
  - by apply sublist_cons.
  - by apply sublist_skip.
Qed.

Lemma loop_order coresponding new :
  loop_outcome coresponding = Ok new →
  ∃ aligned,
    Forall2 loaded_from aligned new.1
    ∧ aligned `sublist_of` coresponding.*1
    ∧ new.2.*1 `sublist_of` coresponding.*1.
Proof.
  revert new. induction coresponding as [|[b p] rest IH]; intros new.
  - intros [= <-]. by exists [].
  - rewrite loop_outcome_cons.
    destruct (pair_outcome b p) as [new1|] eqn:Hpair; [|done].
    destruct (loop_outcome rest) as [new2|]; [|done].
    intros [= <-]. destruct (IH new2 eq_refl) as (aligned & Hal & Hsub1 & Hsub2).
    rewrite fmap_cons. simpl.
    apply pair_outcome_Ok_inv in Hpair
      as [[_ ->]|(q & session & photo_data & A & B & -> & [Hs _] & Hcase)].
    + exists aligned. simpl. split; [done|]. split; by apply sublist_cons.
    + destruct Hcase as [(aligner & _ & ->)|[_ ->]]; simpl.
      * exists (b :: aligned). split.
        { constructor; [|done]. by exists session, photo_data, aligner. }
        split; [by apply sublist_skip|by apply sublist_cons].
      * exists aligned. split; [done|].
        split; [by apply sublist_cons|by apply sublist_skip].
Qed.

Lemma pair_session_calls b p :
  omap session_path (pair_calls b p)
  = [os_path_join behaviour_data_folder b].
Proof.
  unfold pair_calls, load_pair. run_monad.
  destruct p as [q|]; simpl; crush_cases.
Qed.

Lemma pair_ppd_calls b p new :
  pair_outcome b p = Ok new →
  omap ppd_path (pair_calls b p)
  = if Py.truthy p
    then option_list (os_path_join photometry_data_folder <$> p)
    else [].
Proof.
  unfold pair_outcome, pair_calls, load_pair. run_monad.
  destruct p as [q|]; simpl; crush_cases.
Qed.

Lemma loop_session_calls coresponding new :
  loop_outcome coresponding = Ok new →
  omap session_path (loop_calls coresponding)
  = (λ entry, os_path_join behaviour_data_folder entry.1) <$> coresponding.
Proof.
  revert new. induction coresponding as [|[b p] rest IH]; intros new; [done|].
  rewrite loop_outcome_cons, loop_calls_cons, omap_app, pair_session_calls.
  destruct (pair_outcome b p) as [new1|]; [|done].
  destruct (loop_outcome rest) as [new2|]; [|done].
  intros _. simpl. by rewrite (IH new2 eq_refl).
Qed.

Lemma loop_ppd_calls coresponding new :
  Forall (λ entry, entry.2 = None ∨ Py.truthy entry.2 = true) coresponding →
  loop_outcome coresponding = Ok new →
  omap ppd_path (loop_calls coresponding)
  = omap (λ entry, os_path_join photometry_data_folder <$> entry.2) coresponding.
Proof.
  intros Hcf. revert new. induction Hcf as [|[b p] rest Hp _ IH]; intros new; [done|].
  rewrite loop_outcome_cons, loop_calls_cons, omap_app.
  destruct (pair_outcome b p) as [new1|] eqn:Hpair; [|done].
  destruct (loop_outcome rest) as [new2|]; [|done].
  intros _. rewrite (pair_ppd_calls _ _ _ Hpair). simpl.
  rewrite (IH new2 eq_refl).
  destruct Hp as [Hp|Hp]; simpl in Hp; [by subst p|].
  rewrite Hp. by destruct p.
Qed.

Lemma fails_outside_try_outcome b p x :
  fails_outside_try b p x →
  pair_outcome b p = Raise x.
Proof.
  unfold pair_outcome, load_pair. step_monad.
  intros [->|(session & q & -> & -> & Ht & Hcase)]; [done|].
  rewrite Ht.
  destruct Hcase as [->|(photo_data & -> & Hkeys)]; [done|].
  destruct Hkeys as [[-> ->]|([B ->] & -> & ->)]; done.
Qed.

End LoopFacts.

Section LoopProperties.

Context `{Collaborators pyobj}.

(** X5.  A photometry file whose key is the key of no behavioural file is
    ignored without a word: when the script completes, it is the partner
    in no entry of the correspondence list, it is in no synchronisation
    error and it is not among the missing sessions. *)
Theorem unmatched_photometry_is_ignored
    (photometry_filenames behaviour_filenames : list string)
    (w : world pyobj) o w' (p : string) :
  script photometry_filenames behaviour_filenames w = (Ok o, w') →
  (∀ b, b ∈ behaviour_filenames → _get_file_info b ≠ _get_file_info p) →
  (Some p ∉ (out_coresponding o).*2)
  ∧ (p ∉ (out_sync_errors o).*2)
  ∧ (p ∉ out_missing o).
Proof.
  rewrite script_run.
  destruct (coresponding_files _ _) as [cf|] eqn:Hcf; [|done].
  destruct (loop_outcome cf) as [new|] eqn:Hloop; [|done].
  intros [= <- <-] Hkeys. simpl.
  pose proof (coresponding_files_paired _ _ _ Hcf) as Hpaired.
  assert (∀ b, (b, Some p) ∉ cf) as Hnot.
  { intros b [i Hi]%list_elem_of_lookup_1.
    destruct (Forall2_lookup_r _ _ _ _ _ Hpaired Hi)
      as (b' & Hb' & Hfst & info & Hinfo & Hm). simpl in *. subst b'.
    destruct (next_match_Some_inv _ _ _ Hm) as (_ & _ & _ & _ & Hp).
    apply (Hkeys b); [by eapply list_elem_of_lookup_2|congruence]. }
  split; [|split].
  - intros ([b p'] & Hp' & Hin)%list_elem_of_fmap. simpl in Hp'. subst p'.
    by apply (Hnot b).
  - intros ([b p'] & Hp' & Hin)%list_elem_of_fmap. simpl in Hp'. subst p'.
    apply (loop_outcome_errors _ _ _ _ Hloop) in Hin as [Hin _].
    by apply (Hnot b).
  - intros Hin%elem_of_missing_sessions.
    apply (Hkeys p); [|done].
    rewrite <- (coresponding_files_fst _ _ _ Hcf).
    apply list_elem_of_fmap. by exists (p, None).
Qed.

(** X6.  When the script completes, [sessions], [missing_sessions] and
    [sync_errors] each keep the order of the behavioural listing: the
    names behind each of them form a sublist of it. *)
Theorem results_keep_listing_order
    (photometry_filenames behaviour_filenames : list string)
    (w : world pyobj) o w' :
  script photometry_filenames behaviour_filenames w = (Ok o, w') →
  (∃ aligned,
     Forall2 loaded_from aligned (out_sessions o)
     ∧ aligned `sublist_of` behaviour_filenames)
  ∧ out_missing o `sublist_of` behaviour_filenames
  ∧ (out_sync_errors o).*1 `sublist_of` behaviour_filenames.
Proof.
  rewrite script_run.
  destruct (coresponding_files _ _) as [cf|] eqn:Hcf; [|done].
  destruct (loop_outcome cf) as [new|] eqn:Hloop; [|done].
  intros [= <- <-]. simpl.
  rewrite <- (coresponding_files_fst _ _ _ Hcf).
  destruct (loop_order _ _ Hloop) as (aligned & Hal & Hsub1 & Hsub2).
  split; [by exists aligned|]. split; [apply missing_sessions_sublist|done].
Qed.

(** X7.  When the script completes, [Session] was called once for every
    behavioural file, in the order of the listing, also for the files
    without photometry partner; [import_ppd] was called once for every
    entry with a partner, in order, and for nothing else. *)
Theorem files_are_loaded_once
    (photometry_filenames behaviour_filenames : list string)
    (w : world pyobj) o w' :
  script photometry_filenames behaviour_filenames w = (Ok o, w') →
  ∃ made,
    calls w' = calls w ++ made
    ∧ omap session_path made
      = os_path_join behaviour_data_folder <$> behaviour_filenames
    ∧ omap ppd_path made
      = omap (λ entry, os_path_join photometry_data_folder <$> entry.2)
          (out_coresponding o).
Proof.
  rewrite script_run.
  destruct (coresponding_files _ _) as [cf|] eqn:Hcf; [|done].
  destruct (loop_outcome cf) as [new|] eqn:Hloop; [|done].
  intros [= <- <-]. simpl. exists (loop_calls cf). split; [done|]. split.
  - rewrite (loop_session_calls _ _ Hloop),
      <- (coresponding_files_fst _ _ _ Hcf), <- list_fmap_compose. done.
  - apply (loop_ppd_calls _ new); [|done]. by eapply coresponding_files_truthy.
Qed.

(** X8.  Every session the script leaves in [sessions] is the object
    [Session] returned for its behavioural file, with its [times]
    unchanged and with [photo_data] set to what [import_ppd] returned for
    the partner file, plus the key 'aligner': the object the constructor
    returned for that pair's pulse trains and [1000 / sampling_rate]. *)
Theorem sessions_carry_their_photo_data
    (photometry_filenames behaviour_filenames : list string)
    (w : world pyobj) o w' :
  script photometry_filenames behaviour_filenames w = (Ok o, w') →
  Forall (λ session,
    ∃ b p loaded photo_data A B sampling_rate units aligner,
      (b, Some p) ∈ out_coresponding o
      ∧ reaches_alignment b p loaded photo_data A B
      ∧ photo_data !! "sampling_rate" = Some sampling_rate
      ∧ truediv (py_int 1000) sampling_rate = Ok units
      ∧ Rsync_aligner A B units = Ok aligner
      ∧ session_times session = session_times loaded
      ∧ ∃ attached,
          session_photo_data session = Some attached
          ∧ attached !! "aligner" = Some aligner
          ∧ ∀ k, k ≠ "aligner" → attached !! k = photo_data !! k)
    (out_sessions o).
Proof.
  rewrite script_run.
  destruct (coresponding_files _ _) as [cf|] eqn:Hcf; [|done].
  destruct (loop_outcome cf) as [new|] eqn:Hloop; [|done].
  intros [= <- <-]. simpl. apply Forall_forall. intros session Hin.
  apply (loop_outcome_sessions _ _ _ Hloop) in Hin as (b & p & Hin & Hpair).
  apply pair_outcome_session_inv in Hpair
    as (loaded & photo_data & A & B & aligner & Hreach & Hal & ->).
  apply aligner_outcome_Ok_inv in Hal as (rate & units & Hrate & Hunits & Hal).
  exists b, p, loaded, photo_data, A, B, rate, units, aligner.
  repeat (split; [done|]).
  exists (<["aligner" := aligner]> photo_data). simpl. split; [done|].
  split; [by rewrite lookup_insert_eq|].
  intros k Hk. by rewrite lookup_insert_ne.
Qed.

(** X9.  When the script completes, a pair is in [sync_errors] exactly when
    it is an entry of the correspondence list for which both files loaded,
    both pulse trains were found and the body of the [try] raised
    [RsyncError]; nothing else puts a pair there. *)
Theorem sync_errors_are_the_rsync_failures
    (photometry_filenames behaviour_filenames : list string)
    (w : world pyobj) o w' (b p : string) :
  script photometry_filenames behaviour_filenames w = (Ok o, w') →
  (b, p) ∈ out_sync_errors o ↔
  (b, Some p) ∈ out_coresponding o
  ∧ ∃ loaded photo_data A B,
      reaches_alignment b p loaded photo_data A B
      ∧ aligner_outcome A B photo_data = Raise RsyncError.
Proof.
  rewrite script_run.
  destruct (coresponding_files _ _) as [cf|] eqn:Hcf; [|done].
  destruct (loop_outcome cf) as [new|] eqn:Hloop; [|done].
  intros [= <- <-]. simpl.
  by rewrite (loop_outcome_errors _ _ _ _ Hloop), pair_outcome_error_iff.
Qed.

(** X10.  Only the constructor call is protected.  An exception raised by
    [Session], by [import_ppd] or by the look-up of a pulse train (a
    [KeyError]) stops the loop and the script at once with that exception,
    even when it is an [RsyncError]; the calls for the later pairs are not
    made and no summary is printed. *)
Theorem failure_outside_try_aborts (b : string) (p : option string) (x : exn)
    (before after : list (string * option string))
    (photometry_filenames behaviour_filenames : list string) (w : world pyobj) :
  fails_outside_try b p x →
  is_Ok (loop_outcome before) = true →
  coresponding_files behaviour_filenames photometry_filenames
  = Ok (before ++ (b, p) :: after) →
  ∃ w',
    script photometry_filenames behaviour_filenames w = (Raise x, w')
    ∧ stdout w' = stdout w
    ∧ calls w' = calls w ++ loop_calls before ++ pair_calls b p.
Proof.
  intros Hfail%fails_outside_try_outcome Hbefore Hcf.
  rewrite script_run, Hcf.
  assert (loop_outcome (before ++ (b, p) :: after) = Raise x) as ->.
  { rewrite loop_outcome_app. destruct (loop_outcome before); [|done].
    by rewrite loop_outcome_cons, Hfail. }
  assert (loop_calls (before ++ (b, p) :: after)
          = loop_calls before ++ pair_calls b p) as ->.
  { rewrite loop_calls_app, Hbefore, loop_calls_cons, Hfail.
    by rewrite app_nil_r. }
  eexists. split; [done|]. split; done.
Qed.

(** X11.  When the script completes, the three collections share out the
    behavioural files: the numbers of sessions, of missing sessions and of
    synchronisation errors add up to the number of behavioural files. *)
Theorem result_sizes_add_up
    (photometry_filenames behaviour_filenames : list string)
    (w : world pyobj) o w' :
  script photometry_filenames behaviour_filenames w = (Ok o, w') →
  (length (out_sessions o) + length (out_missing o)
   + length (out_sync_errors o))%nat
  = length behaviour_filenames.
Proof.
  rewrite script_run.
  destruct (coresponding_files _ _) as [cf|] eqn:Hcf; [|done].
  destruct (loop_outcome cf) as [new|] eqn:Hloop; [|done].
  intros [= <- <-]. simpl.
  destruct (loop_partition cf new) as (aligned & Hal & Hperm);
    [by eapply coresponding_files_truthy|done|].
  rewrite <- (coresponding_files_fst _ _ _ Hcf).
  apply Permutation_length in Hperm.
  rewrite !length_app, !length_fmap in Hperm. rewrite length_fmap.
  apply Forall2_length in Hal. lia.
Qed.

End LoopProperties.

Lemma unmatched_photometry_is_ignored_witness :
  ∃ o w',
    script (Demo.photometry_filenames ++ ["m007-2019-01-01.ppd"])
           Demo.behaviour_filenames (init_world (pyobj := Demo.obj))
    = (Ok o, w')
    ∧ ("m007-2019-01-01.ppd" ∉ (out_sync_errors o).*2).
Proof.
  eexists _, _. split; [vm_compute; reflexivity|].
  eapply (@unmatched_photometry_is_ignored Demo.obj Demo.collaborators
            (Demo.photometry_filenames ++ ["m007-2019-01-01.ppd"])
            Demo.behaviour_filenames init_world).
  - vm_compute; reflexivity.
  - intros b Hb Hkey.
    repeat (apply elem_of_cons in Hb as [->|Hb]; [discriminate Hkey|]).
    by apply elem_of_nil in Hb.
Defined.

Lemma results_keep_listing_order_witness :
  ∃ o w',
    script Demo.photometry_filenames Demo.behaviour_filenames
           (init_world (pyobj := Demo.obj))
    = (Ok o, w')
    ∧ out_missing o `sublist_of` Demo.behaviour_filenames.
Proof.
  eexists _, _. split; [vm_compute; reflexivity|].
  eapply (@results_keep_listing_order Demo.obj Demo.collaborators
            Demo.photometry_filenames Demo.behaviour_filenames init_world).
  vm_compute; reflexivity.
Defined.

Lemma files_are_loaded_once_witness :
  ∃ o w',
    script Demo.photometry_filenames Demo.behaviour_filenames
           (init_world (pyobj := Demo.obj))
    = (Ok o, w')
    ∧ ∃ made,
        calls w' = calls (init_world (pyobj := Demo.obj)) ++ made
        ∧ omap session_path made
          = os_path_join behaviour_data_folder <$> Demo.behaviour_filenames
        ∧ omap ppd_path made
          = omap (λ entry, os_path_join photometry_data_folder <$> entry.2)
              (out_coresponding o).
Proof.
  eexists _, _. split; [vm_compute; reflexivity|].
  eapply (@files_are_loaded_once Demo.obj Demo.collaborators
            Demo.photometry_filenames Demo.behaviour_filenames init_world).
  vm_compute; reflexivity.
Defined.

Lemma sessions_carry_their_photo_data_witness :
  ∃ o w',
    script Demo.photometry_filenames Demo.behaviour_filenames
           (init_world (pyobj := Demo.obj))
    = (Ok o, w')
    ∧ Forall (λ session,
        ∃ b p loaded photo_data A B sampling_rate units aligner,
          (b, Some p) ∈ out_coresponding o
          ∧ reaches_alignment b p loaded photo_data A B
          ∧ photo_data !! "sampling_rate" = Some sampling_rate
          ∧ truediv (py_int 1000) sampling_rate = Ok units
          ∧ Rsync_aligner A B units = Ok aligner
          ∧ session_times session = session_times loaded
          ∧ ∃ attached,
              session_photo_data session = Some attached
              ∧ attached !! "aligner" = Some aligner
              ∧ ∀ k, k ≠ "aligner" → attached !! k = photo_data !! k)
        (out_sessions o).
Proof.
  eexists _, _. split; [vm_compute; reflexivity|].
  eapply (@sessions_carry_their_photo_data Demo.obj Demo.collaborators
            Demo.photometry_filenames Demo.behaviour_filenames init_world).
  vm_compute; reflexivity.
Defined.

Lemma sync_errors_are_the_rsync_failures_witness :
  ∃ o w',
    script Demo.photometry_filenames Demo.behaviour_filenames
           (init_world (pyobj := Demo.obj))
    = (Ok o, w')
    ∧ (("m003-2019-01-01.txt", "m003-2019-01-01.ppd") ∈ out_sync_errors o ↔
       ("m003-2019-01-01.txt", Some "m003-2019-01-01.ppd") ∈ out_coresponding o
       ∧ ∃ loaded photo_data A B,
           reaches_alignment "m003-2019-01-01.txt" "m003-2019-01-01.ppd"
             loaded photo_data A B
           ∧ aligner_outcome A B photo_data = Raise RsyncError).
Proof.
  eexists _, _. split; [vm_compute; reflexivity|].
  eapply (@sync_errors_are_the_rsync_failures Demo.obj Demo.collaborators
            Demo.photometry_filenames Demo.behaviour_filenames init_world).
  vm_compute; reflexivity.
Defined.

Lemma failure_outside_try_aborts_witness :
  ∃ w',
    script ["m001-2019-01-01.ppd"]
           ["m001-2019-01-01.txt"; "m005-2019-01-01.txt"; "m002-2019-01-01.txt"]
           (init_world (pyobj := Demo.obj))
    = (Raise (OtherError "FileNotFoundError"), w')
    ∧ stdout w' = stdout (init_world (pyobj := Demo.obj))
    ∧ calls w'
      = calls (init_world (pyobj := Demo.obj))
        ++ loop_calls [("m001-2019-01-01.txt", Some "m001-2019-01-01.ppd")]
        ++ pair_calls "m005-2019-01-01.txt" None.
Proof.
  apply (@failure_outside_try_aborts Demo.obj Demo.collaborators
           "m005-2019-01-01.txt" None (OtherError "FileNotFoundError")
           [("m001-2019-01-01.txt", Some "m001-2019-01-01.ppd")]
           [("m002-2019-01-01.txt", None)]).
  - left. reflexivity.
  - vm_compute; reflexivity.
  - vm_compute; reflexivity.
Defined.

Lemma result_sizes_add_up_witness :
  ∃ o w',
    script Demo.photometry_filenames Demo.behaviour_filenames
           (init_world (pyobj := Demo.obj))
    = (Ok o, w')
    ∧ (length (out_sessions o) + length (out_missing o)
       + length (out_sync_errors o))%nat
      = length Demo.behaviour_filenames.
Proof.
  eexists _, _. split; [vm_compute; reflexivity|].
  eapply (@result_sizes_add_up Demo.obj Demo.collaborators
            Demo.photometry_filenames Demo.behaviour_filenames init_world).
  vm_compute; reflexivity.
Defined.

(** * Properties of the traces of [average_response] *)

Lemma add64_small x y : int64 (x + y) → Np.add64 x y = (x + y)%Z.
Proof.
  unfold int64, Np.add64. intros Hxy. rewrite Z.mod_small; lia.
Qed.



Lemma slice_inside {A} (a : list A) start stop :
  (0 ≤ start)%Z → (start ≤ stop)%Z → (stop ≤ Z.of_nat (length a))%Z →
  Np.slice a start stop
  = take (Z.to_nat (stop - start)) (drop (Z.to_nat start) a).
Proof.
  intros H0 Hle Hlen. unfold Np.slice, Np.slice_index.
  destruct (Z.ltb_spec start 0), (Z.ltb_spec stop 0); try lia.
  by rewrite !Z.min_l by lia.
Qed.



Lemma vstack_Ok {A} (rows : list (list A)) stacked :
  Np.vstack rows = Ok stacked →
  stacked = rows ∧ rows ≠ []
  ∧ ∀ r1 r2, r1 ∈ rows → r2 ∈ rows → length r1 = length r2.
Proof.
  destruct rows as [|row rest]; [done|]. simpl.
  destruct (forallb _ rest) eqn:Hall; [|done].
  intros [= <-]. split; [done|]. split; [done|].
  assert (∀ r, r ∈ row :: rest → length r = length row) as Hrow.
  { intros r [->|Hr]%elem_of_cons; [done|].
    apply Is_true_true_2, forallb_True in Hall. rewrite Forall_forall in Hall.
    by apply Nat.eqb_eq, Is_true_true_1, Hall. }
  intros r1 r2 H1 H2. by rewrite (Hrow r1 H1), (Hrow r2 H2).
Qed.


Section ResponseFacts.

Context `{Numpy pyobj}.

Lemma events_loop_acc session window_size event_samples traces :
  events_loop session window_size event_samples traces
  = (λ new, traces ++ new) <$> events_loop session window_size event_samples [].
Proof.
  revert traces. induction event_samples as [|es rest IH]; intros traces; simpl.
  - by rewrite app_nil_r.
  - destruct (trace_around session window_size es) as [trace|]; simpl; [|done].
    rewrite IH, (IH [_]).
    destruct (events_loop session window_size rest []); simpl; [|done].
    by rewrite <- app_assoc.
Qed.

Lemma sessions_loop_cons session rest event window_ms traces :
  sessions_loop (session :: rest) event window_ms traces
  = (data ← session_events session event window_ms;
     new ← events_loop session data.1 data.2 [];
     sessions_loop rest event window_ms (traces ++ new)).
Proof.
  unfold session_events. simpl.
  destruct (get_photo_data session) as [photo_data|]; simpl; [|done].
  destruct (Py.dict_get photo_data "sampling_rate") as [rate|]; simpl; [|done].
  destruct (window_in_samples window_ms rate) as [window_size|]; simpl; [|done].
  destruct (Py.dict_get (session_times session) event) as [times|]; simpl; [|done].
  destruct (Py.dict_get photo_data "aligner") as [aligner|]; simpl; [|done].
  destruct (A_to_B_samples aligner times) as [event_samples|]; simpl; [|done].
  rewrite events_loop_acc.
  by destruct (events_loop session window_size event_samples []).
Qed.

Lemma sessions_loop_acc sessions event window_ms traces :
  sessions_loop sessions event window_ms traces
  = (λ new, traces ++ new) <$> sessions_loop sessions event window_ms [].
Proof.
  revert traces. induction sessions as [|session rest IH]; intros traces.
  - simpl. by rewrite app_nil_r.
  - rewrite !sessions_loop_cons.
    destruct (session_events session event window_ms) as [data|]; simpl; [|done].
    destruct (events_loop session data.1 data.2 []) as [new|]; simpl; [|done].
    rewrite IH, (IH new).
    destruct (sessions_loop rest event window_ms []); simpl; [|done].
    by rewrite <- app_assoc.
Qed.

Lemma events_loop_traces session window_size event_samples traces :
  events_loop session window_size event_samples [] = Ok traces →
  Forall2 (λ es trace, trace_around session window_size es = Ok trace)
    event_samples traces.
Proof.
  revert traces. induction event_samples as [|es rest IH]; intros traces; simpl.
  - intros [= <-]. constructor.
  - destruct (trace_around session window_size es) as [trace|] eqn:Ht; simpl; [|done].
    rewrite events_loop_acc.
    destruct (events_loop session window_size rest []) as [new|]; simpl; [|done].
    intros [= <-]. constructor; [done|]. by apply IH.
Qed.

Lemma trace_around_signal session items w0 w1 es :
  signal_of session items →
  trace_around session [w0; w1] es
  = Ok (Np.slice items (Np.add64 es w0) (Np.add64 es w1)).
Proof.
  intros (photo_data & signal & Hpd & Hsig & Hitems).
  unfold trace_around, get_photo_data, Py.dict_get. rewrite Hpd. simpl.
  rewrite Hsig. simpl. by rewrite Hitems.
Qed.

End ResponseFacts.

Section ResponseProperties.

Context `{Numpy pyobj}.

(** X12.  When the window of an event lies inside the recording, the trace
    appended for it is that window of the signal: it has
    [window_size[1] - window_size[0]] samples, and its sample [i] is sample
    [es + window_size[0] + i] of 'analog_1_filt'. *)
Theorem trace_is_the_window (session : session_obj pyobj) (items : list pyobj)
    (w0 w1 es : Z) :
  signal_of session items →
  (w0 ≤ w1)%Z →
  fits (length items) (es + w0) (es + w1) →
  int64 (Z.of_nat (length items)) →
  ∃ trace,
    trace_around session [w0; w1] es = Ok trace
    ∧ length trace = Z.to_nat (w1 - w0)
    ∧ ∀ i, (i < Z.to_nat (w1 - w0))%nat →
           trace !! i = items !! (Z.to_nat (es + w0) + i)%nat.
Proof.
  intros Hsig Hle [H0 Hlen] Hint. unfold int64 in Hint.
  eexists. split; [by apply trace_around_signal|].
  rewrite !add64_small by (unfold int64; lia).
  rewrite slice_inside by lia.
  replace (es + w1 - (es + w0))%Z with (w1 - w0)%Z by lia.
  split.
  - rewrite length_take, length_drop. lia.
  - intros i Hi. by rewrite lookup_take_lt, lookup_drop.
Qed.


(** X14.  Without a single event, [average_response] raises: when every
    session has an empty array of event samples (also when there is no
    session at all), [np.vstack] gets an empty list and raises
    [ValueError]. *)
Theorem no_event_raises_ValueError (sessions : list (session_obj pyobj))
    (event : string) (window_ms : pyobj) :
  Forall (λ session,
    ∃ window_size, session_events session event window_ms = Ok (window_size, []))
    sessions →
  average_response_traces sessions event window_ms
  = Raise (OtherError "ValueError").
Proof.
  intros Hall. unfold average_response_traces.
  assert (sessions_loop sessions event window_ms [] = Ok []) as ->; [|done].
  induction Hall as [|session rest [window_size Hs] _ IH]; [done|].
  rewrite sessions_loop_cons, Hs. simpl. by rewrite IH.
Qed.

(** X15.  When the stacking succeeds, the result has one row for every
    event of every session, in the order of the sessions, all rows have
    the same length, and there is at least one row. *)
Theorem stacked_rows (sessions : list (session_obj pyobj))
    (event : string) (window_ms : pyobj) (rows : list (list pyobj)) :
  average_response_traces sessions event window_ms = Ok rows →
  (∃ per_session,
     Forall2 (λ session data, session_events session event window_ms = Ok data)
       sessions per_session
     ∧ length rows = sum_list_with (λ data, length data.2) per_session)
  ∧ rows ≠ []
  ∧ ∀ r1 r2, r1 ∈ rows → r2 ∈ rows → length r1 = length r2.
Proof.
  unfold average_response_traces.
  destruct (sessions_loop sessions event window_ms []) as [traces|] eqn:Hloop;
    simpl; [|done].
  intros Hv. apply vstack_Ok in Hv as (-> & Hne & Hsame).
  split; [|done]. clear Hne Hsame.
  revert traces Hloop. induction sessions as [|session rest IH]; intros traces.
  - intros [= <-]. by exists [].
  - rewrite sessions_loop_cons.
    destruct (session_events session event window_ms) as [data|] eqn:Hs; simpl; [|done].
    destruct (events_loop session data.1 data.2 []) as [new|] eqn:He; simpl; [|done].
    rewrite sessions_loop_acc.
    destruct (sessions_loop rest event window_ms []) as [more|] eqn:Hrest;
      simpl; [|done].
    intros [= <-]. destruct (IH more eq_refl) as (per_session & Hall & Hlen).
    exists (data :: per_session). split; [by constructor|].
    apply events_loop_traces, Forall2_length in He.
    rewrite length_app. simpl. lia.
Qed.



End ResponseProperties.

Section ScriptAndResponse.

Context `{Collaborators pyobj} `{!Numpy pyobj}.

(** X17.  On a session the import script produced, [average_response]
    finds [photo_data], 'sampling_rate' and 'aligner': what it computes
    before visiting the events is the window for the imported sampling
    rate and the conversion, by the aligner constructed for that pair, of
    the session's times for the event.  Only the window computation, the
    look-up of the event and the conversion can fail there. *)
Theorem script_sessions_feed_average_response
    (photometry_filenames behaviour_filenames : list string)
    (w : world pyobj) o w' :
  script photometry_filenames behaviour_filenames w = (Ok o, w') →
  Forall (λ session,
    ∃ b p loaded photo_data A B sampling_rate units aligner,
      (b, Some p) ∈ out_coresponding o
      ∧ reaches_alignment b p loaded photo_data A B
      ∧ photo_data !! "sampling_rate" = Some sampling_rate
      ∧ truediv (py_int 1000) sampling_rate = Ok units
      ∧ Rsync_aligner A B units = Ok aligner
      ∧ ∀ event window_ms,
          session_events session event window_ms
          = (window_size ← window_in_samples window_ms sampling_rate;
             event_times ← Py.dict_get (session_times loaded) event;
             event_samples ← A_to_B_samples aligner event_times;
             Ok (window_size, event_samples)))
    (out_sessions o).
Proof.
  rewrite script_run.
  destruct (coresponding_files _ _) as [cf|] eqn:Hcf; [|done].
  destruct (loop_outcome cf) as [new|] eqn:Hloop; [|done].
  intros [= <- <-]. simpl. apply Forall_forall. intros session Hin.
  apply (loop_outcome_sessions _ _ _ Hloop) in Hin as (b & p & Hin & Hpair).
  apply pair_outcome_session_inv in Hpair
    as (loaded & photo_data & A & B & aligner & Hreach & Hal & ->).
  apply aligner_outcome_Ok_inv in Hal as (rate & units & Hrate & Hunits & Hal).
  exists b, p, loaded, photo_data, A, B, rate, units, aligner.
  repeat (split; [done|]).
  intros event window_ms. unfold session_events, get_photo_data, Py.dict_get.
  simpl.
  assert ("aligner" ≠ "sampling_rate") as Hne by (intros Heq; discriminate Heq).
  rewrite (lookup_insert_ne photo_data _ _ aligner Hne), Hrate. simpl.
  destruct (window_in_samples window_ms rate) as [window_size|]; simpl; [|done].
  destruct (session_times loaded !! event) as [times|]; simpl; [|done].
  by rewrite lookup_insert_eq.
Qed.

End ScriptAndResponse.

(** * The further properties on the concrete world *)

Lemma trace_is_the_window_witness :
  ∃ trace,
    trace_around (DemoResponse.session [1000; 2000]%Z) [-10; 20]%Z 10%Z = Ok trace
    ∧ length trace = Z.to_nat (20 - -10)
    ∧ ∀ i, (i < Z.to_nat (20 - -10))%nat →
           trace !! i
           = (Demo.Int <$> DemoResponse.signal) !! (Z.to_nat (10 + -10) + i)%nat.
Proof.
  apply (trace_is_the_window (DemoResponse.session [1000; 2000]%Z)
           (Demo.Int <$> DemoResponse.signal) (-10)%Z 20%Z 10%Z).
  - eexists _, _. repeat split; reflexivity.
  - lia.
  - unfold fits. vm_compute. split; discriminate.
  - unfold int64. vm_compute. split; [discriminate|reflexivity].
Defined.


Lemma no_event_raises_ValueError_witness :
  average_response_traces [DemoResponse.session []; DemoResponse.session []]
    "reward" DemoResponse.window_ms
  = Raise (OtherError "ValueError").
Proof.
  apply no_event_raises_ValueError.
  repeat constructor; exists [-10; 20]%Z; reflexivity.
Defined.

Lemma stacked_rows_witness :
  ∃ rows,
    average_response_traces
      [DemoResponse.session [1000; 2000]%Z; DemoResponse.session [1000]%Z]
      "reward" DemoResponse.window_ms
    = Ok rows
    ∧ rows ≠ [].
Proof.
  eexists. split; [vm_compute; reflexivity|].
  eapply (stacked_rows
            [DemoResponse.session [1000; 2000]%Z; DemoResponse.session [1000]%Z]
            "reward" DemoResponse.window_ms).
  vm_compute; reflexivity.
Defined.


Lemma script_sessions_feed_average_response_witness :
  ∃ o w',
    script Demo.photometry_filenames Demo.behaviour_filenames
           (init_world (pyobj := Demo.obj))
    = (Ok o, w')
    ∧ Forall (λ session,
        ∃ b p loaded photo_data A B sampling_rate units aligner,
          (b, Some p) ∈ out_coresponding o
          ∧ reaches_alignment b p loaded photo_data A B
          ∧ photo_data !! "sampling_rate" = Some sampling_rate
          ∧ truediv (py_int 1000) sampling_rate = Ok units
          ∧ Rsync_aligner A B units = Ok aligner
          ∧ ∀ event window_ms,
              session_events session event window_ms
              = (window_size ← window_in_samples window_ms sampling_rate;
                 event_times ← Py.dict_get (session_times loaded) event;
                 event_samples ← A_to_B_samples aligner event_times;
                 Ok (window_size, event_samples)))
        (out_sessions o).
Proof.
  eexists _, _. split; [vm_compute; reflexivity|].
  eapply (@script_sessions_feed_average_response Demo.obj Demo.collaborators
            DemoResponse.numpy
            Demo.photometry_filenames Demo.behaviour_filenames init_world).
  vm_compute; reflexivity.
Defined.

Section LoopInvariant.

Context `{Collaborators pyobj}.

(** X18.  The loading loop only appends: whatever list of pairs it
    processes, the [sessions] and [sync_errors] it started from are
    prefixes of those it ends with, the calls made before are a prefix of
    the calls made after, and nothing is printed. *)
Theorem load_loop_only_appends (coresponding : list (string * option string))
    (sessions : list (session_obj pyobj)) (sync_errors : list (string * string))
    (w : world pyobj) sessions' sync_errors' w' :
  load_loop coresponding sessions sync_errors w = (Ok (sessions', sync_errors'), w') →
  sessions `prefix_of` sessions'
  ∧ sync_errors `prefix_of` sync_errors'
  ∧ calls w `prefix_of` calls w'
  ∧ stdout w' = stdout w.
Proof.
  rewrite load_loop_run.
  destruct (loop_outcome coresponding) as [new|]; [|done].
  intros [= <- <- <-]. simpl.
  split; [by apply prefix_app_r|]. split; [by apply prefix_app_r|].
  split; [by apply prefix_app_r|done].
Qed.

End LoopInvariant.

Lemma load_loop_only_appends_witness :
  ∃ sessions' sync_errors' w',
    load_loop [("m003-2019-01-01.txt", Some "m003-2019-01-01.ppd");
               ("m001-2019-01-01.txt", Some "m001-2019-01-01.ppd")]
      [] [("m000-2019-01-01.txt", "m000-2019-01-01.ppd")]
      (init_world (pyobj := Demo.obj))
    = (Ok (sessions', sync_errors'), w')
    ∧ [("m000-2019-01-01.txt", "m000-2019-01-01.ppd")] `prefix_of` sync_errors'.
Proof.
  eexists _, _, _. split; [vm_compute; reflexivity|].
  eapply (@load_loop_only_appends Demo.obj Demo.collaborators
            [("m003-2019-01-01.txt", Some "m003-2019-01-01.ppd");
             ("m001-2019-01-01.txt", Some "m001-2019-01-01.ppd")]
            [] [("m000-2019-01-01.txt", "m000-2019-01-01.ppd")] init_world).
  vm_compute; reflexivity.
Defined.
